(** * ISO-8601 timestamp parsing: [qualifier.py]

    A shallow embedding of [parse_iso8601] and of the compiled pattern
    [datetime_regex] it matches with, followed by the properties of the
    parser.

    Conventions of the model.
    - A Python [str] is a [string]; its characters are the code points
      below 256.  On that range the class [\d] of Python's [re] (Unicode
      category Nd) is exactly ['0'..'9'].
    - An exception is a value of [exn]; a computation that may raise has
      type [result A].
    - Python's [float] is IEEE 754 binary64, the kernel's primitive
      [float].
    - What [re], [int], [float] and [datetime] do is the standard
      library's, modelled here on the values the parser passes them.

    The development has three layers: the matcher ([Re.run], all the
    matches of a pattern in backtracking order) and what [datetime_regex]
    accepts ([rmatch_shape], [rmatch_complete]); the body of the parser on
    the groups of a match ([parse_match_parts]); and the properties of
    [parse_iso8601] on strings. *)

From Stdlib Require Import ZArith List String Ascii Bool Lia.
From Stdlib Require Import Floats Uint63.
Import ListNotations.

Local Open Scope string_scope.
Local Open Scope Z_scope.

(** ** Exceptions and results *)

Inductive exn : Type :=
| ValueError (msg : string)
| TypeError
| KeyError
| OverflowError.

Inductive result (A : Type) : Type :=
| Ok (a : A)
| Raise (e : exn).

Arguments Ok {A} a.
Arguments Raise {A} e.

Definition bind {A B : Type} (c : result A) (f : A -> result B) : result B :=
  match c with
  | Ok a => f a
  | Raise e => Raise e
  end.

Notation "x <- c ;; k" := (bind c (fun x => k))
  (at level 61, c at next level, right associativity).

(** [if cond: raise e] followed by the rest of the block. *)
Definition raise_if {A : Type} (cond : bool) (e : exn) (k : result A) : result A :=
  if cond then Raise e else k.

(** ** Regular expressions: the fragment of [re] the pattern uses *)

Module Re.

(** The named groups of [datetime_regex]. *)
Inductive group : Type :=
| year | hyphen | month | day
| hour | colon | minute | second | subsecond
| timezone | sign | tz_hour | tz_minute.

Definition group_eqb (a b : group) : bool :=
  match a, b with
  | year, year | hyphen, hyphen | month, month | day, day
  | hour, hour | colon, colon | minute, minute | second, second
  | subsecond, subsecond | timezone, timezone | sign, sign
  | tz_hour, tz_hour | tz_minute, tz_minute => true
  | _, _ => false
  end.

Inductive regex : Type :=
| Lit (c : ascii)                   (* a literal character *)
| Digit                             (* \d *)
| Bol                               (* ^ , without MULTILINE *)
| Eol                               (* $ , without MULTILINE *)
| Seq (a b : regex)                 (* a b *)
| Alt (a b : regex)                 (* a|b *)
| Rep (lo hi : nat) (a : regex)     (* a{lo,hi}, greedy; a? is a{0,1} *)
| Grp (g : group) (a : regex)       (* (?P<g>a) *)
| Ref (g : group).                  (* (?P=g) *)

(** A matcher state: the position in the subject, what is left of the
    subject from there, and the groups that are set (latest first). *)
Record mstate : Type := MState {
  pos : nat;
  rest : string;
  caps : list (group * string)
}.

Fixpoint lookup (g : group) (l : list (group * string)) : option string :=
  match l with
  | [] => None
  | (g', w) :: l' => if group_eqb g g' then Some w else lookup g l'
  end.

Definition is_digit (c : ascii) : bool :=
  let n := nat_of_ascii c in (48 <=? n)%nat && (n <=? 57)%nat.

Definition newline : ascii := ascii_of_nat 10.

(** [s] starts with [w]: what is left of [s] after [w]. *)
Fixpoint strip_prefix (w s : string) : option string :=
  match w with
  | EmptyString => Some s
  | String a w' =>
      match s with
      | EmptyString => None
      | String b s' => if Ascii.eqb a b then strip_prefix w' s' else None
      end
  end.

(** Greedy bounded repetition of a matcher [f]: one more round first,
    stopping here second (when [lo] rounds are done). *)
Fixpoint rep_run (f : mstate -> list mstate) (lo hi : nat) (st : mstate)
  : list mstate :=
  match hi with
  | O => match lo with O => [st] | S _ => [] end
  | S hi' =>
      flat_map (rep_run f (Nat.pred lo) hi') (f st)
      ++ match lo with O => [st] | S _ => [] end
  end.

(** All the ways [r] matches at [st], in the order a backtracking matcher
    tries them.  The engine's answer is the first one. *)
Fixpoint run (r : regex) (st : mstate) : list mstate :=
  match r with
  | Lit c =>
      match rest st with
      | String c' s' =>
          if Ascii.eqb c c' then [MState (S (pos st)) s' (caps st)] else []
      | EmptyString => []
      end
  | Digit =>
      match rest st with
      | String c' s' =>
          if is_digit c' then [MState (S (pos st)) s' (caps st)] else []
      | EmptyString => []
      end
  | Bol => match pos st with O => [st] | S _ => [] end
  | Eol =>
      match rest st with
      | EmptyString => [st]
      | String c' EmptyString => if Ascii.eqb c' newline then [st] else []
      | String _ (String _ _) => []
      end
  | Seq a b => flat_map (run b) (run a st)
  | Alt a b => run a st ++ run b st
  | Rep lo hi a => rep_run (run a) lo hi st
  | Grp g a =>
      map (fun st' =>
             MState (pos st') (rest st')
                    ((g, substring 0 (pos st' - pos st) (rest st)) :: caps st'))
          (run a st)
  | Ref g =>
      match lookup g (caps st) with
      | None => []
      | Some w =>
          match strip_prefix w (rest st) with
          | Some s' => [MState (pos st + length w) s' (caps st)]
          | None => []
          end
      end
  end.

(** [re.match(r, s)]: the groups of the first match at position 0, or
    [None]. *)
Definition rmatch (r : regex) (s : string) : option (list (group * string)) :=
  match run r (MState 0 s []) with
  | [] => None
  | st :: _ => Some (caps st)
  end.

Fixpoint seq (rs : list regex) : regex :=
  match rs with
  | [] => Rep 0 0 Digit
  | [r] => r
  | r :: rs' => Seq r (seq rs')
  end.

Definition opt (r : regex) : regex := Rep 0 1 r.
Definition digits (n : nat) : regex := Rep n n Digit.

End Re.

Import Re.

(** The pattern of [datetime_regex], group by group as it is written
    (verbose mode: the blanks and the [(?# )] comments are not part of
    it). *)
Definition datetime_regex : regex :=
  seq [
    Bol;
    Grp year (digits 4); Grp hyphen (opt (Lit "-")); Grp month (digits 2);
    Ref hyphen; Grp day (digits 2);
    opt (seq [
      Lit "T";
      Grp hour (digits 2);
      opt (seq [
        Grp colon (opt (Lit ":"));
        Grp minute (digits 2);
        opt (seq [
          Ref colon;
          Grp second (digits 2);
          opt (seq [Lit "."; Grp subsecond (Rep 1 6 Digit)])
        ])
      ])
    ]);
    opt (Grp timezone
           (Alt (Lit "Z")
                (seq [
                  Grp sign (Alt (Lit "+") (Lit "-"));
                  Grp tz_hour (digits 2);
                  opt (seq [opt (Lit ":"); Grp tz_minute (digits 2)])
                ])));
    Eol
  ].

(** ** The Python built-ins the parser calls *)

(** [match.group(name)]: [None] when the group took no part. *)
Definition group_of (m : list (group * string)) (g : group) : option string :=
  lookup g m.

(** [bool(x)] for [x] a string or [None]. *)
Definition py_bool (x : option string) : bool :=
  match x with
  | None | Some EmptyString => false
  | Some (String _ _) => true
  end.

Fixpoint all_digits (s : string) : bool :=
  match s with
  | EmptyString => true
  | String c s' => is_digit c && all_digits s'
  end.

Definition digit_val (c : ascii) : Z := Z.of_nat (nat_of_ascii c) - 48.

Fixpoint decimal (acc : Z) (s : string) : Z :=
  match s with
  | EmptyString => acc
  | String c s' => decimal (10 * acc + digit_val c) s'
  end.

(** [int(x)] for [x] a string or [None], on non-empty strings of digits,
    which is all the pattern captures for the groups read this way; the
    other strings are refused. *)
Definition py_int (x : option string) : result Z :=
  match x with
  | None => Raise TypeError
  | Some s =>
      match s with
      | EmptyString => Raise (ValueError "invalid literal for int() with base 10")
      | String _ _ =>
          if all_digits s then Ok (decimal 0 s)
          else Raise (ValueError "invalid literal for int() with base 10")
      end
  end.

(** [x == s] for [x] a string or [None]. *)
Definition py_eq (x : option string) (s : string) : bool :=
  match x with
  | None => false
  | Some w => String.eqb w s
  end.

Definition is_none {A : Type} (x : option A) : bool :=
  match x with
  | None => true
  | Some _ => false
  end.

(** [int(x or 0)]. *)
Definition py_int_or_0 (x : option string) : result Z :=
  if py_bool x then py_int x else Ok 0.

Definition float_of_Z (z : Z) : float := PrimFloat.of_uint63 (Uint63.of_Z z).

(** [float("0." + d)] for [d] a string of 1 to 6 digits: the double
    nearest to the decimal fraction.  The fraction is [decimal d / 10^len],
    both below [2^53], and IEEE division of two exact doubles rounds their
    quotient to nearest. *)
Definition float_of_fraction (d : string) : float :=
  PrimFloat.div (float_of_Z (decimal 0 d))
                (float_of_Z (10 ^ Z.of_nat (length d))).

(** [int(f)] for a float: truncation toward zero. *)
Definition int_of_float (f : float) : result Z :=
  match Prim2SF f with
  | S754_zero _ => Ok 0
  | S754_finite s m e =>
      let mag := if 0 <=? e then Z.pos m * 2 ^ e else Z.pos m / 2 ^ (- e) in
      Ok (if s then - mag else mag)
  | S754_infinity _ => Raise OverflowError
  | S754_nan => Raise (ValueError "cannot convert float NaN to integer")
  end.

(** ** [datetime]: the part of the module the parser builds its result with *)

(** [datetime.timedelta(hours=h, minutes=m)], in minutes. *)
Definition timedelta (hours minutes : Z) : Z := hours * 60 + minutes.

(** [datetime.timezone(offset)]: the offset lies strictly between minus and
    plus 24 hours. *)
Definition mk_timezone (offset : Z) : result Z :=
  if (- 1440 <? offset) && (offset <? 1440) then Ok offset
  else Raise (ValueError "offset must be a timedelta strictly between -timedelta(hours=24) and timedelta(hours=24)").

(** [datetime.timezone.utc]. *)
Definition utc : Z := 0.

Record datetime : Type := Datetime {
  dt_year : Z;
  dt_month : Z;
  dt_day : Z;
  dt_hour : Z;
  dt_minute : Z;
  dt_second : Z;
  dt_microsecond : Z;
  dt_tzinfo : option Z        (* the UTC offset in minutes; [None]: naive *)
}.

(** The calendar of the [datetime] module ([_is_leap], [_days_in_month]),
    which its constructor checks the day against. *)
Definition lib_is_leap (y : Z) : bool :=
  (y mod 4 =? 0) && (negb (y mod 100 =? 0) || (y mod 400 =? 0)).

Definition lib_days_in_month (y m : Z) : Z :=
  if m =? 2 then (if lib_is_leap y then 29 else 28)
  else if (m =? 4) || (m =? 6) || (m =? 9) || (m =? 11) then 30
  else 31.

Definition in_range (lo x hi : Z) : bool := (lo <=? x) && (x <=? hi).

(** [datetime.datetime(year=.., .., tzinfo=..)] with the range checks of
    the constructor. *)
Definition mk_datetime (y mo d h mi s us : Z) (tz : option Z) : result datetime :=
  raise_if (negb (in_range 1 y 9999)) (ValueError "year is out of range")
  (raise_if (negb (in_range 1 mo 12)) (ValueError "month must be in 1..12")
  (raise_if (negb (in_range 1 d (lib_days_in_month y mo)))
            (ValueError "day is out of range for month")
  (raise_if (negb (in_range 0 h 23)) (ValueError "hour must be in 0..23")
  (raise_if (negb (in_range 0 mi 59)) (ValueError "minute must be in 0..59")
  (raise_if (negb (in_range 0 s 59)) (ValueError "second must be in 0..59")
  (raise_if (negb (in_range 0 us 999999))
            (ValueError "microsecond must be in 0..999999")
  (Ok (Datetime y mo d h mi s us tz)))))))).

(** A dict with integer keys, as its literal lists it. *)
Fixpoint dict_get (d : list (Z * Z)) (k : Z) : result Z :=
  match d with
  | [] => Raise KeyError
  | (k', v) :: d' => if k =? k' then Ok v else dict_get d' k
  end.

(** ** The errors [parse_iso8601] raises itself *)

Inductive field : Type :=
| Fyear | Fmonth | Fhour | Fminute | Fsecond | Ftz_hour | Ftz_minute.

Definition NoMatch : exn :=
  ValueError "The string is not in the format as specified by ISO-8601 (limited to the requirements in README.md).".

Definition InconsistentFormat : exn :=
  ValueError "Date and time must be both truncated or untruncated.".

Definition FieldOutOfRange (f : field) : exn :=
  ValueError
    match f with
    | Fyear => "The year value is out of range."
    | Fmonth => "The month value is out of range."
    | Fhour => "The hour value is out of range."
    | Fminute => "The minute value is out of range."
    | Fsecond => "The second value is out of range."
    | Ftz_hour => "The timezone hour offset value is out of range."
    | Ftz_minute => "The timezone minute offset value is out of range."
    end.

Definition DayOutOfRange : exn :=
  ValueError "The day value is out of range for the month.".

(** ** [parse_iso8601] *)

Definition days_in_february (y : Z) : Z :=
  let d := 28 in
  let d := if y mod 4 =? 0 then 29 else d in
  let d := if (y mod 100 =? 0) && negb (y mod 400 =? 0) then 28 else d in
  d.

Definition days_in_month (y : Z) : list (Z * Z) :=
  [(1, 31); (2, days_in_february y); (3, 31); (4, 30); (5, 31); (6, 30);
   (7, 31); (8, 31); (9, 30); (10, 31); (11, 30); (12, 31)].

(** The microsecond block. *)
Definition microsecond_of (subsec_match : option string) : result Z :=
  match subsec_match with
  | Some d => int_of_float (PrimFloat.mul (float_of_fraction d) (float_of_Z 1000000))
  | None => Ok 0
  end.

(** The timezone block. *)
Definition tzinfo_of (m : list (group * string)) : result (option Z) :=
  match group_of m timezone with
  | None => Ok None
  | Some tz =>
      if String.eqb tz "Z" then Ok (Some utc)
      else
        tzh <- py_int (group_of m tz_hour) ;;
        raise_if (negb (in_range 0 tzh 23)) (FieldOutOfRange Ftz_hour)
        (tzm <- py_int_or_0 (group_of m tz_minute) ;;
         raise_if (negb (in_range 0 tzm 59)) (FieldOutOfRange Ftz_minute)
         (let sgn := if py_eq (group_of m sign) "+" then 1 else -1 in
          tzv <- mk_timezone (timedelta (tzh * sgn) (tzm * sgn)) ;;
          Ok (Some tzv)))
  end.

(** The body of [parse_iso8601] under [if match := ...]. *)
Definition parse_match (m : list (group * string)) : result datetime :=
  let date_seperator := group_of m hyphen in
  let time_seperator := group_of m colon in
  raise_if (negb (is_none time_seperator)
            && negb (Bool.eqb (py_bool date_seperator) (py_bool time_seperator)))
           InconsistentFormat
  (y <- py_int (group_of m year) ;;
   raise_if (y <? 1) (FieldOutOfRange Fyear)
   (mo <- py_int (group_of m month) ;;
    raise_if (negb (in_range 1 mo 12)) (FieldOutOfRange Fmonth)
    (h <- py_int_or_0 (group_of m hour) ;;
     raise_if (negb (in_range 0 h 23)) (FieldOutOfRange Fhour)
     (mi <- py_int_or_0 (group_of m minute) ;;
      raise_if (negb (in_range 0 mi 59)) (FieldOutOfRange Fminute)
      (s <- py_int_or_0 (group_of m second) ;;
       raise_if (negb (in_range 0 s 59)) (FieldOutOfRange Fsecond)
       (us <- microsecond_of (group_of m subsecond) ;;
        tz <- tzinfo_of m ;;
        d <- py_int (group_of m day) ;;
        (* [1 <= day <= days_in_month[month]]: the lookup is evaluated
           only when [1 <= day] holds *)
        raise_if (negb (1 <=? d)) DayOutOfRange
        (dim <- dict_get (days_in_month y) mo ;;
         raise_if (negb (d <=? dim)) DayOutOfRange
         (mk_datetime y mo d h mi s us tz)))))))).

Definition parse_iso8601 (timestamp : string) : result datetime :=
  match rmatch datetime_regex timestamp with
  | Some m => parse_match m
  | None => Raise NoMatch
  end.

Definition nl : string := String newline EmptyString.

(** ** The microsecond computation over all fractions of a given width *)

Definition micro_float (d k : Z) : float :=
  PrimFloat.mul (PrimFloat.div (float_of_Z d) (float_of_Z (10 ^ k)))
                (float_of_Z 1000000).

(** [0.0 <= y < 1000000.0], with the comparisons of the floats. *)
Definition below_million (y : float) : bool :=
  PrimFloat.leb (float_of_Z 0) y && PrimFloat.ltb y (float_of_Z 1000000).

Fixpoint all_below (n : nat) (d k : Z) : bool :=
  match n with
  | O => true
  | S n' => below_million (micro_float d k) && all_below n' (d + 1) k
  end.

(** The fractions of width [k], counted from [d], whose microsecond value
    is not the digits padded with zeros to six places. *)
Fixpoint inexact (n : nat) (d k : Z) : list Z :=
  match n with
  | O => []
  | S n' =>
      match int_of_float (micro_float d k) with
      | Ok v => if v =? d * 10 ^ (6 - k) then inexact n' (d + 1) k
                else d :: inexact n' (d + 1) k
      | Raise _ => d :: inexact n' (d + 1) k
      end
  end.

(** ** The accepted strings, part by part

    The three parts of the pattern (date, time, timezone) as the strings
    they accept and the groups they set. *)

Record date_part : Type := DatePart {
  d_year : string;
  d_sep : string;
  d_month : string;
  d_day : string
}.

Inductive time_part : Type :=
| NoTime
| TimeH (h : string)
| TimeHM (h c mi : string)
| TimeHMS (h c mi s : string)
| TimeHMSF (h c mi s f : string).

Inductive tz_part : Type :=
| NoTz
| TzZ
| TzH (sg h : string)
| TzHM (sg h c m : string).

Definition is_digits (n : nat) (w : string) : bool :=
  (length w =? n)%nat && all_digits w.

Definition is_sep (c w : string) : bool :=
  String.eqb w "" || String.eqb w c.

Definition is_sign (w : string) : bool :=
  String.eqb w "+" || String.eqb w "-".

Definition is_fraction (f : string) : bool :=
  (1 <=? length f)%nat && (length f <=? 6)%nat && all_digits f.

Definition date_ok (d : date_part) : bool :=
  is_digits 4 (d_year d) && is_sep "-" (d_sep d)
  && is_digits 2 (d_month d) && is_digits 2 (d_day d).

Definition time_ok (t : time_part) : bool :=
  match t with
  | NoTime => true
  | TimeH h => is_digits 2 h
  | TimeHM h c mi => is_digits 2 h && is_sep ":" c && is_digits 2 mi
  | TimeHMS h c mi s =>
      is_digits 2 h && is_sep ":" c && is_digits 2 mi && is_digits 2 s
  | TimeHMSF h c mi s f =>
      is_digits 2 h && is_sep ":" c && is_digits 2 mi && is_digits 2 s
      && is_fraction f
  end.

Definition tz_ok (z : tz_part) : bool :=
  match z with
  | NoTz | TzZ => true
  | TzH sg h => is_sign sg && is_digits 2 h
  | TzHM sg h c m => is_sign sg && is_digits 2 h && is_sep ":" c && is_digits 2 m
  end.

Definition date_text (d : date_part) : string :=
  d_year d ++ d_sep d ++ d_month d ++ d_sep d ++ d_day d.

Definition time_text (t : time_part) : string :=
  match t with
  | NoTime => ""
  | TimeH h => "T" ++ h
  | TimeHM h c mi => "T" ++ h ++ c ++ mi
  | TimeHMS h c mi s => "T" ++ h ++ c ++ mi ++ c ++ s
  | TimeHMSF h c mi s f => "T" ++ h ++ c ++ mi ++ c ++ s ++ "." ++ f
  end.

Definition tz_text (z : tz_part) : string :=
  match z with
  | NoTz => ""
  | TzZ => "Z"
  | TzH sg h => sg ++ h
  | TzHM sg h c m => sg ++ h ++ c ++ m
  end.

Definition date_groups (d : date_part) : list (group * string) :=
  [(day, d_day d); (month, d_month d); (hyphen, d_sep d); (year, d_year d)].

Definition time_groups (t : time_part) : list (group * string) :=
  match t with
  | NoTime => []
  | TimeH h => [(hour, h)]
  | TimeHM h c mi => [(minute, mi); (colon, c); (hour, h)]
  | TimeHMS h c mi s => [(second, s); (minute, mi); (colon, c); (hour, h)]
  | TimeHMSF h c mi s f =>
      [(subsecond, f); (second, s); (minute, mi); (colon, c); (hour, h)]
  end.

Definition tz_groups (z : tz_part) : list (group * string) :=
  match z with
  | NoTz => []
  | TzZ => [(timezone, "Z")]
  | TzH sg h => [(timezone, sg ++ h); (tz_hour, h); (sign, sg)]
  | TzHM sg h c m =>
      [(timezone, sg ++ h ++ c ++ m); (tz_minute, m); (tz_hour, h); (sign, sg)]
  end.

Definition all_groups (d : date_part) (t : time_part) (z : tz_part)
  : list (group * string) :=
  tz_groups z ++ time_groups t ++ date_groups d.

Definition all_text (d : date_part) (t : time_part) (z : tz_part) : string :=
  date_text d ++ time_text t ++ tz_text z.

(** ** Reading the parts: the fields as numbers *)

Definition num (w : string) : Z := decimal 0 w.

Definition opt_num (x : option string) : Z :=
  match x with
  | Some w => num w
  | None => 0
  end.

Definition hour_str (t : time_part) : option string :=
  match t with
  | NoTime => None
  | TimeH h | TimeHM h _ _ | TimeHMS h _ _ _ | TimeHMSF h _ _ _ _ => Some h
  end.

Definition colon_str (t : time_part) : option string :=
  match t with
  | NoTime | TimeH _ => None
  | TimeHM _ c _ | TimeHMS _ c _ _ | TimeHMSF _ c _ _ _ => Some c
  end.

Definition minute_str (t : time_part) : option string :=
  match t with
  | NoTime | TimeH _ => None
  | TimeHM _ _ mi | TimeHMS _ _ mi _ | TimeHMSF _ _ mi _ _ => Some mi
  end.

Definition second_str (t : time_part) : option string :=
  match t with
  | NoTime | TimeH _ | TimeHM _ _ _ => None
  | TimeHMS _ _ _ s | TimeHMSF _ _ _ s _ => Some s
  end.

Definition fraction_str (t : time_part) : option string :=
  match t with
  | TimeHMSF _ _ _ _ f => Some f
  | _ => None
  end.

Definition tz_str (z : tz_part) : option string :=
  match z with
  | NoTz => None
  | _ => Some (tz_text z)
  end.

Definition sign_str (z : tz_part) : option string :=
  match z with
  | TzH sg _ | TzHM sg _ _ _ => Some sg
  | _ => None
  end.

Definition tz_hour_str (z : tz_part) : option string :=
  match z with
  | TzH _ h | TzHM _ h _ _ => Some h
  | _ => None
  end.

Definition tz_minute_str (z : tz_part) : option string :=
  match z with
  | TzHM _ _ _ m => Some m
  | _ => None
  end.

Definition year_of (d : date_part) : Z := num (d_year d).
Definition month_of (d : date_part) : Z := num (d_month d).
Definition day_of (d : date_part) : Z := num (d_day d).
Definition hour_of (t : time_part) : Z := opt_num (hour_str t).
Definition minute_of (t : time_part) : Z := opt_num (minute_str t).
Definition second_of (t : time_part) : Z := opt_num (second_str t).
Definition tz_hour_of (z : tz_part) : Z := opt_num (tz_hour_str z).
Definition tz_minute_of (z : tz_part) : Z := opt_num (tz_minute_str z).

Definition tz_sign (z : tz_part) : Z :=
  match sign_str z with
  | Some sg => if String.eqb sg "+" then 1 else -1
  | None => 1
  end.

(** The sign applied to the hours and to the minutes: one signed number of
    minutes; [Z] is zero; no timezone is no offset. *)
Definition offset_of (z : tz_part) : option Z :=
  match z with
  | NoTz => None
  | TzZ => Some 0
  | TzH _ _ | TzHM _ _ _ _ =>
      Some (tz_sign z * (60 * tz_hour_of z + tz_minute_of z))
  end.

(** ** The validation rules in the order of the specification *)

Definition nonempty (w : string) : bool := negb (String.eqb w "").

(** Date and time are both truncated or both extended; a time without a
    minute has no separator to compare. *)
Definition consistent (d : date_part) (t : time_part) : bool :=
  match colon_str t with
  | None => true
  | Some c => Bool.eqb (nonempty (d_sep d)) (nonempty c)
  end.

(** Leap if divisible by 4, except the century years not divisible by
    400. *)
Definition leap_year (y : Z) : bool :=
  (y mod 4 =? 0) && negb ((y mod 100 =? 0) && negb (y mod 400 =? 0)).

Definition max_day (y m : Z) : Z :=
  if m =? 2 then (if leap_year y then 29 else 28)
  else if (m =? 4) || (m =? 6) || (m =? 9) || (m =? 11) then 30
  else 31.

(** Each rule with the error of its violation: consistency, year, month,
    hour, minute, second, timezone hour, timezone minute, day. *)
Definition checks (d : date_part) (t : time_part) (z : tz_part)
  : list (bool * exn) :=
  [ (consistent d t, InconsistentFormat);
    (1 <=? year_of d, FieldOutOfRange Fyear);
    (in_range 1 (month_of d) 12, FieldOutOfRange Fmonth);
    (in_range 0 (hour_of t) 23, FieldOutOfRange Fhour);
    (in_range 0 (minute_of t) 59, FieldOutOfRange Fminute);
    (in_range 0 (second_of t) 59, FieldOutOfRange Fsecond);
    (in_range 0 (tz_hour_of z) 23, FieldOutOfRange Ftz_hour);
    (in_range 0 (tz_minute_of z) 59, FieldOutOfRange Ftz_minute);
    (in_range 1 (day_of d) (max_day (year_of d) (month_of d)), DayOutOfRange) ].

(** The errors of the violated rules, in that order. *)
Definition violations (d : date_part) (t : time_part) (z : tz_part) : list exn :=
  map snd (filter (fun c => negb (fst c)) (checks d t z)).

Definition first_violation (d : date_part) (t : time_part) (z : tz_part)
  : option exn :=
  hd_error (violations d t z).

(** The microsecond field as [parse_iso8601] computes it. *)
Definition micro_of (t : time_part) : Z :=
  match microsecond_of (fraction_str t) with
  | Ok v => v
  | Raise _ => 0
  end.

Definition timestamp_of (d : date_part) (t : time_part) (z : tz_part) : datetime :=
  Datetime (year_of d) (month_of d) (day_of d)
           (hour_of t) (minute_of t) (second_of t) (micro_of t) (offset_of z).

(** Validation as the specification orders it: the first violated rule, or
    the timestamp. *)
Definition validate (d : date_part) (t : time_part) (z : tz_part)
  : result datetime :=
  match first_violation d t z with
  | Some e => Raise e
  | None => Ok (timestamp_of d t z)
  end.

(** The timezone block of the parser, on the parts. *)
Definition tz_result (z : tz_part) : result (option Z) :=
  if negb (in_range 0 (tz_hour_of z) 23) then Raise (FieldOutOfRange Ftz_hour)
  else if negb (in_range 0 (tz_minute_of z) 59)
       then Raise (FieldOutOfRange Ftz_minute)
       else Ok (offset_of z).

(** All the rules hold. *)
Definition valid (d : date_part) (t : time_part) (z : tz_part) : bool :=
  forallb fst (checks d t z).

(** The first [n] rules, in their order, hold. *)
Definition passes_before (n : nat) (d : date_part) (t : time_part) (z : tz_part)
  : bool :=
  forallb fst (firstn n (checks d t z)).

(** ** Writing numbers as fixed-width decimal fields *)

Definition digit_char (k : Z) : ascii := ascii_of_nat (48 + Z.to_nat k).

Definition pad2 (n : Z) : string :=
  String (digit_char (n / 10)) (String (digit_char (n mod 10)) "").

Definition pad4 (n : Z) : string :=
  String (digit_char (n / 1000))
    (String (digit_char (n / 100 mod 10))
       (String (digit_char (n / 10 mod 10))
          (String (digit_char (n mod 10)) ""))).

(** The errors [parse_iso8601] raises with its own [raise] statements. *)
Definition own_error (e : exn) : Prop :=
  e = NoMatch \/ e = InconsistentFormat \/ (exists f, e = FieldOutOfRange f)
  \/ e = DayOutOfRange.

(** The parts written with given separators. *)
Definition date_with (sep : string) (d : date_part) : date_part :=
  DatePart (d_year d) sep (d_month d) (d_day d).

Definition time_with (sep : string) (t : time_part) : time_part :=
  match t with
  | NoTime => NoTime
  | TimeH h => TimeH h
  | TimeHM h _ mi => TimeHM h sep mi
  | TimeHMS h _ mi s => TimeHMS h sep mi s
  | TimeHMSF h _ mi s f => TimeHMSF h sep mi s f
  end.

Definition tz_with (sep : string) (z : tz_part) : tz_part :=
  match z with
  | TzHM sg h _ m => TzHM sg h sep m
  | _ => z
  end.

(** A string of the accepted language: a date, an optional time, an
    optional timezone, and at most one final newline. *)
Definition accepted (s : string) : Prop :=
  exists d t z e,
    date_ok d = true /\ time_ok t = true /\ tz_ok z = true /\
    (e = "" \/ e = nl) /\ s = all_text d t z ++ e.

(** ** Devices of the proofs *)

(** The time and timezone parts of the pattern. *)
Definition time_re : regex :=
  seq [
    Lit "T";
    Grp hour (digits 2);
    opt (seq [
      Grp colon (opt (Lit ":"));
      Grp minute (digits 2);
      opt (seq [
        Ref colon;
        Grp second (digits 2);
        opt (seq [Lit "."; Grp subsecond (Rep 1 6 Digit)])
      ])
    ])
  ].

Definition tz_re : regex :=
  Grp timezone
    (Alt (Lit "Z")
         (seq [
           Grp sign (Alt (Lit "+") (Lit "-"));
           Grp tz_hour (digits 2);
           opt (seq [opt (Lit ":"); Grp tz_minute (digits 2)])
         ])).

(** [st'] is [st] after the text [w]. *)
Definition adv (st : mstate) (w : string) (st' : mstate) : Prop :=
  rest st = w ++ rest st' /\ pos st' = (pos st + length w)%nat.

Definition sign_ok (w : string) : Prop := w = "+" \/ w = "-".

(** The first alternative of [l] that the continuation [k] accepts: what a
    backtracking matcher returns. *)
Fixpoint find_first {A : Type} (k : mstate -> option A) (l : list mstate)
  : option A :=
  match l with
  | [] => None
  | x :: l' =>
      match k x with
      | Some y => Some y
      | None => find_first k l'
      end
  end.

Definition first_match {A : Type} (r : regex) (st : mstate)
  (k : mstate -> option A) : option A :=
  find_first k (run r st).

(** The first character of [r], if any, satisfies [p]. *)
Definition starts (p : ascii -> bool) (r : string) : bool :=
  match r with
  | EmptyString => false
  | String c _ => p c
  end.

(** What may not follow a time part for it to end there: a digit, [:],
    [.] or [T]. *)
Definition time_char (c : ascii) : bool :=
  is_digit c || Ascii.eqb ":" c || Ascii.eqb "." c || Ascii.eqb "T" c.

(** What may not follow a timezone part: a digit, [:], [Z], [+] or [-]. *)
Definition tz_char (c : ascii) : bool :=
  is_digit c || Ascii.eqb ":" c || Ascii.eqb "Z" c || Ascii.eqb "+" c
  || Ascii.eqb "-" c.

(** * Properties *)
(** ** Strings *)

Lemma app_assoc_s (a b c : string) : (a ++ b) ++ c = a ++ b ++ c.
Proof. induction a as [| x a IH]; simpl; [reflexivity | now rewrite IH]. Qed.

Lemma app_nil_r_s (a : string) : a ++ "" = a.
Proof. induction a as [| x a IH]; simpl; [reflexivity | now rewrite IH]. Qed.

Lemma length_app_s (a b : string) :
  length (a ++ b) = (length a + length b)%nat.
Proof. induction a as [| x a IH]; simpl; [reflexivity | now rewrite IH]. Qed.

Lemma substring_prefix (w r : string) : substring 0 (length w) (w ++ r) = w.
Proof.
  induction w as [| x w IH]; simpl.
  - destruct r; reflexivity.
  - now rewrite IH.
Qed.

Lemma strip_prefix_app (w s s' : string) :
  strip_prefix w s = Some s' -> s = w ++ s'.
Proof.
  revert s. induction w as [| a w IH]; intros s H; simpl in *.
  - now inversion H.
  - destruct s as [| b s]; [discriminate |].
    destruct (Ascii.eqb a b) eqn:E; [| discriminate].
    apply Ascii.eqb_eq in E. subst b. now rewrite (IH _ H).
Qed.

Lemma strip_prefix_here (w s : string) : strip_prefix w (w ++ s) = Some s.
Proof.
  induction w as [| a w IH]; simpl; [reflexivity |].
  now rewrite Ascii.eqb_refl.
Qed.

Lemma all_digits_app (a b : string) :
  all_digits (a ++ b) = all_digits a && all_digits b.
Proof.
  induction a as [| x a IH]; simpl; [reflexivity |].
  now rewrite IH, andb_assoc.
Qed.

(** ** The matcher, construct by construct *)

Lemma adv_refl st : adv st "" st.
Proof. split; simpl; [reflexivity | lia]. Qed.

Lemma adv_trans st1 w1 st2 w2 st3 :
  adv st1 w1 st2 -> adv st2 w2 st3 -> adv st1 (w1 ++ w2) st3.
Proof.
  intros [R1 P1] [R2 P2]. split.
  - now rewrite R1, R2, app_assoc_s.
  - rewrite P2, P1, length_app_s. lia.
Qed.

Lemma in_run_lit c st st' :
  In st' (run (Lit c) st) ->
  adv st (String c "") st' /\ caps st' = caps st.
Proof.
  simpl. destruct (rest st) as [| c' s'] eqn:R; [intros [] |].
  destruct (Ascii.eqb c c') eqn:E; [| intros []].
  apply Ascii.eqb_eq in E. subst c'.
  intros [<- | []]. unfold adv. simpl. rewrite R. repeat split. lia.
Qed.

Lemma in_run_digit st st' :
  In st' (run Digit st) ->
  exists c, is_digit c = true /\ adv st (String c "") st' /\ caps st' = caps st.
Proof.
  simpl. destruct (rest st) as [| c' s'] eqn:R; [intros [] |].
  destruct (is_digit c') eqn:E; [| intros []].
  intros [<- | []]. exists c'. unfold adv. simpl. rewrite R. repeat split; auto. lia.
Qed.

Lemma in_run_seq a b st st' :
  In st' (run (Seq a b) st) ->
  exists mid, In mid (run a st) /\ In st' (run b mid).
Proof. simpl. intros H. apply in_flat_map in H. exact H. Qed.

Lemma in_run_alt a b st st' :
  In st' (run (Alt a b) st) -> In st' (run a st) \/ In st' (run b st).
Proof. simpl. intros H. apply in_app_or in H. exact H. Qed.

Lemma in_run_opt a st st' :
  In st' (run (opt a) st) -> In st' (run a st) \/ st' = st.
Proof.
  unfold opt. simpl. intros H. apply in_app_or in H. destruct H as [H | [H | []]].
  - apply in_flat_map in H. destruct H as [x [Hx [H | []]]]. subst. now left.
  - now right.
Qed.

Lemma in_run_grp g a st st' :
  In st' (run (Grp g a) st) ->
  exists st1, In st1 (run a st) /\
    st' = MState (pos st1) (rest st1)
                 ((g, substring 0 (pos st1 - pos st) (rest st)) :: caps st1).
Proof.
  simpl. intros H. apply in_map_iff in H. destruct H as [x [E Hx]].
  exists x. split; [exact Hx | now symmetry].
Qed.

Lemma in_run_ref g st st' :
  In st' (run (Ref g) st) ->
  exists w, lookup g (caps st) = Some w /\ adv st w st' /\ caps st' = caps st.
Proof.
  simpl. destruct (lookup g (caps st)) as [w |]; [| intros []].
  destruct (strip_prefix w (rest st)) as [s' |] eqn:E; [| intros []].
  intros [<- | []]. exists w. unfold adv. simpl.
  repeat split. now apply strip_prefix_app.
Qed.

(** A group around a part that only consumes text sets the group to that
    text. *)
Lemma grp_text g a st st' (P : string -> Prop) :
  (forall st1, In st1 (run a st) ->
     exists w, P w /\ adv st w st1 /\ caps st1 = caps st) ->
  In st' (run (Grp g a) st) ->
  exists w, P w /\ adv st w st' /\ caps st' = (g, w) :: caps st.
Proof.
  intros Ha H. apply in_run_grp in H. destruct H as [st1 [H1 ->]].
  destruct (Ha _ H1) as [w [Pw [[R Hp] C]]].
  exists w. split; [exact Pw |]. unfold adv. simpl.
  rewrite Hp, R, C.
  replace (pos st + length w - pos st)%nat with (length w) by lia.
  rewrite substring_prefix. repeat split.
Qed.

(** Bounded repetition of [\d]. *)
Lemma in_rep_digit lo hi st st' :
  In st' (rep_run (run Digit) lo hi st) ->
  exists w, (lo <= length w <= hi)%nat /\ all_digits w = true /\
            adv st w st' /\ caps st' = caps st.
Proof.
  revert lo st. induction hi as [| hi IH]; intros lo st H.
  - simpl in H. destruct lo; [| destruct H].
    destruct H as [<- | []]. exists "".
    split; [simpl; lia | split; [reflexivity | split; [apply adv_refl | reflexivity]]].
  - simpl in H. apply in_app_or in H. destruct H as [H | H].
    + apply in_flat_map in H. destruct H as [mid [Hm H]].
      apply in_run_digit in Hm. destruct Hm as [c [Dc [A1 C1]]].
      apply IH in H. destruct H as [w [L [Dw [A2 C2]]]].
      exists (String c w). simpl. rewrite Dc, Dw.
      split; [lia | split; [reflexivity | split; [| congruence]]].
      exact (adv_trans _ _ _ _ _ A1 A2).
    + destruct lo; [| destruct H]. destruct H as [<- | []].
      exists "".
      split; [simpl; lia | split; [reflexivity | split; [apply adv_refl | reflexivity]]].
Qed.

Lemma in_grp_digits g lo hi st st' :
  In st' (run (Grp g (Rep lo hi Digit)) st) ->
  exists w, ((lo <= length w <= hi)%nat /\ all_digits w = true) /\
            adv st w st' /\ caps st' = (g, w) :: caps st.
Proof.
  apply grp_text. intros st1 H. simpl in H. apply in_rep_digit in H.
  destruct H as [w [L [D [A C]]]]. exists w. auto.
Qed.

Lemma in_opt_lit c st st' :
  In st' (run (opt (Lit c)) st) ->
  exists w, (w = "" \/ w = String c "") /\ adv st w st' /\ caps st' = caps st.
Proof.
  intros H. apply in_run_opt in H. destruct H as [H | ->].
  - apply in_run_lit in H. destruct H as [A C]. exists (String c ""). auto.
  - exists "". split; [now left |]. split; [apply adv_refl | reflexivity].
Qed.

Lemma in_grp_opt_lit g c st st' :
  In st' (run (Grp g (opt (Lit c))) st) ->
  exists w, (w = "" \/ w = String c "") /\ adv st w st' /\
            caps st' = (g, w) :: caps st.
Proof. apply grp_text. intros st1. apply in_opt_lit. Qed.

Lemma datetime_regex_parts :
  datetime_regex =
  seq [Bol;
       Grp year (digits 4); Grp hyphen (opt (Lit "-")); Grp month (digits 2);
       Ref hyphen; Grp day (digits 2);
       opt time_re; opt tz_re; Eol].
Proof. reflexivity. Qed.

Lemma is_digits_intro n w :
  (n <= length w <= n)%nat /\ all_digits w = true -> is_digits n w = true.
Proof.
  intros [L D]. unfold is_digits. rewrite D, andb_true_r.
  apply Nat.eqb_eq. lia.
Qed.

Lemma is_sep_intro c w : w = "" \/ w = String c "" -> is_sep (String c "") w = true.
Proof.
  intros [-> | ->]; unfold is_sep; [reflexivity |].
  rewrite String.eqb_refl. apply orb_true_r.
Qed.

Lemma is_fraction_intro f :
  (1 <= length f <= 6)%nat /\ all_digits f = true -> is_fraction f = true.
Proof.
  intros [[L1 L2] D]. unfold is_fraction. rewrite D, andb_true_r.
  apply andb_true_iff. split; apply Nat.leb_le; assumption.
Qed.

(** One step of the inversion of a [run] hypothesis. *)
Ltac inv_run :=
  match goal with
  | H : In _ (run (Seq _ _) _) |- _ =>
      apply in_run_seq in H; destruct H as [? [? ?]]
  | H : In _ (run (Grp _ (Rep _ _ Digit)) _) |- _ =>
      apply in_grp_digits in H; destruct H as [? [? [? ?]]]
  | H : In _ (run (Grp _ (opt (Lit _))) _) |- _ =>
      apply in_grp_opt_lit in H; destruct H as [? [? [? ?]]]
  | H : In _ (run (opt (Lit _)) _) |- _ =>
      apply in_opt_lit in H; destruct H as [? [? [? ?]]]
  | H : In _ (run (Lit _) _) |- _ =>
      apply in_run_lit in H; destruct H as [? ?]
  | H : In _ (run (Ref _) _) |- _ =>
      apply in_run_ref in H; destruct H as [? [? [? ?]]]
  end.

(** Chains the consumed texts of consecutive steps. *)
Ltac chain_adv :=
  repeat match goal with
  | A : adv ?a ?w1 ?b, B : adv ?b ?w2 ?c |- _ =>
      pose proof (adv_trans _ _ _ _ _ A B); clear A B
  end.

Ltac inv_opt :=
  match goal with
  | H : In _ (run (opt _) _) |- _ =>
      apply in_run_opt in H; destruct H as [H | ->]
  end.

Ltac subst_caps :=
  repeat match goal with
  | H : caps _ = _ |- _ => try rewrite H in *; clear H
  end;
  repeat match goal with
  | H : lookup _ _ = Some _ |- _ => simpl in H; injection H as <-
  end.

Ltac solve_ok :=
  repeat match goal with
  | H : (_ <= length _ <= _)%nat /\ all_digits _ = true |- _ =>
      first [apply is_digits_intro in H | apply is_fraction_intro in H]
  | H : _ = "" \/ _ = String _ "" |- _ => apply is_sep_intro in H
  end;
  unfold date_ok; cbn [time_ok tz_ok d_year d_sep d_month d_day];
  repeat match goal with
  | H : _ = true |- _ => rewrite H; clear H
  end;
  reflexivity.

Ltac solve_adv :=
  chain_adv;
  match goal with
  | A : adv ?a _ ?b |- adv ?a _ ?b =>
      rewrite ?app_assoc_s in A; simpl in A; simpl; exact A
  end.

Lemma in_run_time st st' :
  In st' (run time_re st) ->
  exists t, time_ok t = true /\ t <> NoTime /\
            adv st (time_text t) st' /\ caps st' = (time_groups t ++ caps st)%list.
Proof.
  unfold time_re, digits. cbn [seq]. intros H.
  repeat inv_run. inv_opt; [repeat inv_run; inv_opt;
                            [repeat inv_run; inv_opt; [repeat inv_run | ] | ] | ];
    subst_caps.
  - match goal with
    | |- exists t, _ /\ _ /\ _ /\
           (subsecond, ?f) :: (second, ?s) :: (minute, ?mi) :: (colon, ?c)
             :: (hour, ?h) :: _ = _ => exists (TimeHMSF h c mi s f)
    end.
    split; [solve_ok | split; [discriminate | split; [solve_adv | reflexivity]]].
  - match goal with
    | |- exists t, _ /\ _ /\ _ /\
           (second, ?s) :: (minute, ?mi) :: (colon, ?c) :: (hour, ?h) :: _ = _ =>
        exists (TimeHMS h c mi s)
    end.
    split; [solve_ok | split; [discriminate | split; [solve_adv | reflexivity]]].
  - match goal with
    | |- exists t, _ /\ _ /\ _ /\
           (minute, ?mi) :: (colon, ?c) :: (hour, ?h) :: _ = _ =>
        exists (TimeHM h c mi)
    end.
    split; [solve_ok | split; [discriminate | split; [solve_adv | reflexivity]]].
  - match goal with
    | |- exists t, _ /\ _ /\ _ /\ (hour, ?h) :: _ = _ => exists (TimeH h)
    end.
    split; [solve_ok | split; [discriminate | split; [solve_adv | reflexivity]]].
Qed.

Lemma in_grp_sign st st' :
  In st' (run (Grp sign (Alt (Lit "+") (Lit "-"))) st) ->
  exists w, sign_ok w /\ adv st w st' /\ caps st' = (sign, w) :: caps st.
Proof.
  apply grp_text. intros st1 H. apply in_run_alt in H.
  destruct H as [H | H]; apply in_run_lit in H; destruct H as [A C];
    [exists "+" | exists "-"]; unfold sign_ok; auto.
Qed.

Lemma is_sign_intro w : sign_ok w -> is_sign w = true.
Proof. intros [-> | ->]; reflexivity. Qed.

(** The text the timezone alternative consumes, before the group around
    it is closed. *)
Lemma in_run_tz_body st st' :
  In st' (run (Alt (Lit "Z")
                   (seq [Grp sign (Alt (Lit "+") (Lit "-"));
                         Grp tz_hour (digits 2);
                         opt (seq [opt (Lit ":"); Grp tz_minute (digits 2)])]))
              st) ->
  exists z, tz_ok z = true /\ z <> NoTz /\ adv st (tz_text z) st' /\
            (timezone, tz_text z) :: caps st' = (tz_groups z ++ caps st)%list.
Proof.
  unfold digits. cbn [seq]. intros H. apply in_run_alt in H. destruct H as [H | H].
  - apply in_run_lit in H. destruct H as [A C]. exists TzZ. rewrite C.
    split; [reflexivity | split; [discriminate | split; [exact A | reflexivity]]].
  - apply in_run_seq in H. destruct H as [m1 [H1 H]].
    apply in_grp_sign in H1. destruct H1 as [sg [Hsg [A1 C1]]].
    apply is_sign_intro in Hsg.
    repeat inv_run. inv_opt; [repeat inv_run |]; subst_caps.
    + match goal with
      | |- exists z, _ /\ _ /\ _ /\
            _ :: (tz_minute, ?m) :: (tz_hour, ?h) :: _ = _ =>
          match goal with
          | Hc : ?c = "" \/ ?c = ":" |- _ => exists (TzHM sg h c m)
          end
      end.
      split; [solve_ok | split; [discriminate | split; [solve_adv | reflexivity]]].
    + match goal with
      | |- exists z, _ /\ _ /\ _ /\ _ :: (tz_hour, ?h) :: _ = _ =>
          exists (TzH sg h)
      end.
      split; [solve_ok | split; [discriminate | split; [solve_adv | reflexivity]]].
Qed.

Lemma in_run_tz st st' :
  In st' (run tz_re st) ->
  exists z, tz_ok z = true /\ z <> NoTz /\ adv st (tz_text z) st' /\
            caps st' = (tz_groups z ++ caps st)%list.
Proof.
  unfold tz_re. intros H. apply in_run_grp in H. destruct H as [st1 [H ->]].
  apply in_run_tz_body in H. destruct H as [z [Hz [Hn [[R P] C]]]].
  exists z. split; [exact Hz | split; [exact Hn |]].
  unfold adv. simpl. rewrite P, R.
  replace (pos st + length (tz_text z) - pos st)%nat
    with (length (tz_text z)) by lia.
  rewrite substring_prefix. repeat split. exact C.
Qed.

Lemma in_run_eol st st' :
  In st' (run Eol st) -> st' = st /\ (rest st = "" \/ rest st = nl).
Proof.
  simpl. destruct (rest st) as [| c [| c' r]] eqn:R.
  - intros [<- | []]. auto.
  - destruct (Ascii.eqb c newline) eqn:E; [| intros []].
    apply Ascii.eqb_eq in E. subst c. intros [<- | []]. auto.
  - intros [].
Qed.

Lemma in_run_bol st st' : In st' (run Bol st) -> st' = st.
Proof. simpl. destruct (pos st); [intros [<- | []]; reflexivity | intros []]. Qed.

(** Whatever the pattern matches is a date, an optional time, an optional
    timezone and at most one final newline, and the groups are those of
    the three parts. *)
Lemma run_datetime_regex_shape s st' :
  In st' (run datetime_regex (MState 0 s [])) ->
  exists d t z e,
    date_ok d = true /\ time_ok t = true /\ tz_ok z = true /\
    (e = "" \/ e = nl) /\
    s = all_text d t z ++ e /\
    caps st' = all_groups d t z.
Proof.
  rewrite datetime_regex_parts. unfold digits. cbn [seq]. intros H.
  apply in_run_seq in H. destruct H as [s0 [H0 H]].
  apply in_run_bol in H0. subst s0.
  do 5 (apply in_run_seq in H; destruct H as [? [? H]]).
  apply in_run_seq in H. destruct H as [st_t [Ht H]].
  apply in_run_seq in H. destruct H as [st_z [Hz H]].
  apply in_run_eol in H. destruct H as [-> He].
  repeat inv_run.
  match type of Ht with
  | In _ (run _ ?a) =>
      assert (Ht' : exists t, time_ok t = true /\ adv a (time_text t) st_t /\
                              caps st_t = (time_groups t ++ caps a)%list)
  end.
  { apply in_run_opt in Ht. destruct Ht as [Ht | ->].
    - apply in_run_time in Ht. destruct Ht as [t [? [? [? ?]]]]. exists t. auto.
    - exists NoTime. split; [reflexivity | split; [apply adv_refl | reflexivity]]. }
  destruct Ht' as [t [Hok_t [At Ct]]].
  assert (Hz' : exists z, tz_ok z = true /\ adv st_t (tz_text z) st_z /\
                          caps st_z = (tz_groups z ++ caps st_t)%list).
  { apply in_run_opt in Hz. destruct Hz as [Hz | ->].
    - apply in_run_tz in Hz. destruct Hz as [z [? [? [? ?]]]]. exists z. auto.
    - exists NoTz. split; [reflexivity | split; [apply adv_refl | reflexivity]]. }
  destruct Hz' as [z [Hok_z [Az Cz]]].
  subst_caps. cbn [caps].
  match goal with
  | |- context [ (day, ?dd) :: (month, ?mo) :: (hyphen, ?hy) :: (year, ?y) :: _ ] =>
      exists (DatePart y hy mo dd), t, z, (rest st_z)
  end.
  split; [solve_ok |].
  split; [exact Hok_t |]. split; [exact Hok_z |]. split; [exact He |].
  split; [| reflexivity].
  chain_adv.
  match goal with A : adv _ _ st_z |- _ => destruct A as [R _]; simpl in R end.
  rewrite R. unfold all_text, date_text. cbn [d_year d_sep d_month d_day].
  rewrite ?app_assoc_s. reflexivity.
Qed.

Lemma rmatch_shape s m :
  rmatch datetime_regex s = Some m ->
  exists d t z e,
    date_ok d = true /\ time_ok t = true /\ tz_ok z = true /\
    (e = "" \/ e = nl) /\
    s = all_text d t z ++ e /\
    m = all_groups d t z.
Proof.
  unfold rmatch. destruct (run datetime_regex (MState 0 s [])) as [| st l] eqn:R;
    [discriminate |].
  intros [= <-]. apply run_datetime_regex_shape. rewrite R. now left.
Qed.

Section FirstMatch.

Context {A : Type}.
Implicit Type k : mstate -> option A.

Lemma find_first_app k l1 l2 :
  find_first k (l1 ++ l2) =
  match find_first k l1 with Some y => Some y | None => find_first k l2 end.
Proof.
  induction l1 as [| x l1 IH]; simpl; [reflexivity |].
  destruct (k x); [reflexivity | exact IH].
Qed.

Lemma find_first_flat_map k (f : mstate -> list mstate) l :
  find_first k (flat_map f l) = find_first (fun x => find_first k (f x)) l.
Proof.
  induction l as [| x l IH]; simpl; [reflexivity |].
  rewrite find_first_app, IH. reflexivity.
Qed.

Lemma find_first_map k (f : mstate -> mstate) l :
  find_first k (map f l) = find_first (fun x => k (f x)) l.
Proof.
  induction l as [| x l IH]; simpl; [reflexivity |].
  rewrite IH. reflexivity.
Qed.

Lemma fm_seq a b st k :
  first_match (Seq a b) st k = first_match a st (fun x => first_match b x k).
Proof. unfold first_match. simpl. apply find_first_flat_map. Qed.

Lemma fm_alt a b st k :
  first_match (Alt a b) st k =
  match first_match a st k with Some y => Some y | None => first_match b st k end.
Proof. unfold first_match. simpl. apply find_first_app. Qed.

Lemma fm_opt a st k :
  first_match (opt a) st k =
  match first_match a st k with Some y => Some y | None => k st end.
Proof.
  unfold first_match, opt. simpl. rewrite find_first_app, find_first_flat_map.
  simpl. 
  replace (find_first (fun x => match k x with Some y => Some y | None => None end)
                      (run a st))
    with (find_first k (run a st)).
  - destruct (find_first k (run a st)); [reflexivity |]. now destruct (k st).
  - induction (run a st) as [| x l IH]; simpl; [reflexivity |].
    destruct (k x); [reflexivity | exact IH].
Qed.

Lemma fm_grp g a st k :
  first_match (Grp g a) st k =
  first_match a st
    (fun x => k (MState (pos x) (rest x)
                        ((g, substring 0 (pos x - pos st) (rest st)) :: caps x))).
Proof. unfold first_match. simpl. apply find_first_map. Qed.

Lemma fm_lit_hit c p r cs k :
  first_match (Lit c) (MState p (String c r) cs) k = k (MState (S p) r cs).
Proof.
  unfold first_match. simpl. rewrite Ascii.eqb_refl. simpl.
  now destruct (k _).
Qed.

Lemma fm_lit_miss c st k :
  starts (Ascii.eqb c) (rest st) = false -> first_match (Lit c) st k = None.
Proof.
  unfold first_match. simpl. destruct (rest st) as [| c' r]; [reflexivity |].
  simpl. now intros ->.
Qed.

Lemma fm_ref g w p r cs k :
  lookup g cs = Some w ->
  first_match (Ref g) (MState p (w ++ r) cs) k = k (MState (p + length w) r cs).
Proof.
  intros L. unfold first_match. simpl. rewrite L, strip_prefix_here. simpl.
  now destruct (k _).
Qed.

Lemma fm_bol s cs k : first_match Bol (MState 0 s cs) k = k (MState 0 s cs).
Proof. unfold first_match. simpl. now destruct (k _). Qed.

Lemma fm_eol p e cs k :
  e = "" \/ e = nl -> first_match Eol (MState p e cs) k = k (MState p e cs).
Proof. intros [-> | ->]; unfold first_match; simpl; now destruct (k _). Qed.

(** [\d{n}] on [n] digits. *)
Lemma find_rep_exact w : forall p r cs k,
  all_digits w = true ->
  find_first k (rep_run (run Digit) (length w) (length w) (MState p (w ++ r) cs))
  = k (MState (p + length w) r cs).
Proof.
  induction w as [| c w IH]; intros p r cs k D; simpl in *.
  - rewrite Nat.add_0_r. now destruct (k _).
  - apply andb_true_iff in D. destruct D as [Dc Dw].
    rewrite Dc. simpl. rewrite app_nil_r, app_nil_r, IH by exact Dw.
    f_equal. f_equal. lia.
Qed.

Lemma fm_grp_digits g n w p r cs k :
  is_digits n w = true ->
  first_match (Grp g (digits n)) (MState p (w ++ r) cs) k =
  k (MState (p + n) r ((g, w) :: cs)).
Proof.
  unfold is_digits. intros H. apply andb_true_iff in H. destruct H as [L D].
  apply Nat.eqb_eq in L. subst n.
  rewrite fm_grp. unfold first_match, digits. simpl run.
  rewrite find_rep_exact by exact D. simpl.
  replace (p + length w - p)%nat with (length w) by lia.
  now rewrite substring_prefix.
Qed.

(** [\d{lo,hi}] with [lo >= 1] where no digit comes first. *)
Lemma fm_digits_miss lo hi st k :
  starts is_digit (rest st) = false ->
  first_match (Rep (S lo) hi Digit) st k = None.
Proof.
  intros H. unfold first_match. simpl. destruct hi as [| hi]; [reflexivity |].
  simpl. destruct (rest st) as [| c r]; [reflexivity |].
  simpl in H. rewrite H. reflexivity.
Qed.

Lemma fm_grp_digits_miss g lo hi st k :
  starts is_digit (rest st) = false ->
  first_match (Grp g (Rep (S lo) hi Digit)) st k = None.
Proof. intros H. rewrite fm_grp. now apply fm_digits_miss. Qed.

(** Greedy [\d{lo,hi}] on a run of digits that ends before [r]: the whole
    run is tried first. *)
Lemma find_rep_greedy f : forall lo hi p r cs k y,
  all_digits f = true -> (lo <= length f <= hi)%nat ->
  starts is_digit r = false ->
  k (MState (p + length f) r cs) = Some y ->
  find_first k (rep_run (run Digit) lo hi (MState p (f ++ r) cs)) = Some y.
Proof.
  induction f as [| c f IH]; intros lo hi p r cs k y D L St K; simpl in *.
  - assert (lo = 0)%nat by lia. subst lo. rewrite Nat.add_0_r in K.
    destruct hi as [| hi]; simpl.
    + now rewrite K.
    + destruct r as [| c r]; simpl in *.
      * now rewrite K.
      * rewrite St. simpl. now rewrite K.
  - apply andb_true_iff in D. destruct D as [Dc Df].
    destruct hi as [| hi]; [lia |].
    simpl. rewrite Dc. simpl. rewrite app_nil_r, find_first_app.
    rewrite (IH (Nat.pred lo) hi (S p) r cs k y); try assumption.
    + reflexivity.
    + lia.
    + rewrite <- K. f_equal. f_equal. lia.
Qed.

End FirstMatch.

Lemma rmatch_first r s :
  rmatch r s = first_match r (MState 0 s []) (fun st => Some (caps st)).
Proof.
  unfold rmatch, first_match. now destruct (run r (MState 0 s [])).
Qed.

Section Forward.

Context {A : Type}.
Implicit Type k : mstate -> option A.

Lemma fm_opt_take a st k y :
  first_match a st k = Some y -> first_match (opt a) st k = Some y.
Proof. intros H. now rewrite fm_opt, H. Qed.

Lemma fm_opt_skip a st k y :
  first_match a st k = None -> k st = Some y ->
  first_match (opt a) st k = Some y.
Proof. intros H K. now rewrite fm_opt, H. Qed.

Lemma is_digits_length n w : is_digits n w = true -> length w = n.
Proof.
  unfold is_digits. intros H. apply andb_true_iff in H.
  now apply Nat.eqb_eq.
Qed.

Lemma is_digits_starts n w r (p : ascii -> bool) :
  is_digits (S n) w = true ->
  (forall c, is_digit c = true -> p c = false) ->
  starts p (w ++ r) = false.
Proof.
  unfold is_digits. intros H Hp. apply andb_true_iff in H. destruct H as [L D].
  destruct w as [| c w]; [discriminate |]. simpl in *.
  apply andb_true_iff in D. now apply Hp.
Qed.

Lemma digit_not_lit (l c : ascii) :
  is_digit l = false -> is_digit c = true -> Ascii.eqb l c = false.
Proof.
  intros Hl Hc. destruct (Ascii.eqb l c) eqn:E; [| reflexivity].
  apply Ascii.eqb_eq in E. congruence.
Qed.

(** A separator group [(?P<g>ch?)] before a text that does not begin with
    [ch]. *)
Lemma fm_grp_sep g ch c p r cs k y :
  is_sep (String ch "") c = true ->
  starts (Ascii.eqb ch) r = false ->
  k (MState (p + length c) r ((g, c) :: cs)) = Some y ->
  first_match (Grp g (opt (Lit ch))) (MState p (c ++ r) cs) k = Some y.
Proof.
  unfold is_sep. intros Hc Hr K. apply orb_true_iff in Hc.
  rewrite fm_grp.
  destruct Hc as [Hc | Hc]; apply String.eqb_eq in Hc; subst c.
  - apply fm_opt_skip.
    + now apply fm_lit_miss.
    + cbn [pos rest caps]. rewrite Nat.sub_diag.
      change (substring 0 0 ("" ++ r)) with (substring 0 (length "") ("" ++ r)).
      rewrite substring_prefix, <- K. simpl. now rewrite Nat.add_0_r.
  - apply fm_opt_take. change (String ch "" ++ r) with (String ch r).
    rewrite fm_lit_hit. cbn [pos rest caps].
    replace (S p - p)%nat with (length (String ch ""))
      by (change (length (String ch "")) with 1%nat; lia).
    change (String ch r) with (String ch "" ++ r).
    rewrite substring_prefix, <- K. f_equal. f_equal. simpl. lia.
Qed.

(** An optional separator without a group. *)
Lemma fm_opt_sep ch c p r cs k y :
  is_sep (String ch "") c = true ->
  starts (Ascii.eqb ch) r = false ->
  k (MState (p + length c) r cs) = Some y ->
  first_match (opt (Lit ch)) (MState p (c ++ r) cs) k = Some y.
Proof.
  unfold is_sep. intros Hc Hr K. apply orb_true_iff in Hc.
  destruct Hc as [Hc | Hc]; apply String.eqb_eq in Hc; subst c; simpl in *.
  - apply fm_opt_skip; [now apply fm_lit_miss |].
    rewrite <- K. now rewrite Nat.add_0_r.
  - apply fm_opt_take. rewrite fm_lit_hit, <- K. f_equal. f_equal. lia.
Qed.

(** The back-reference to a separator group, where the separator does not
    come and no digit either: the part that begins with it fails. *)
Lemma fm_ref_sep_miss g ch c g2 n rest_re p r cs k :
  is_sep (String ch "") c = true ->
  lookup g cs = Some c ->
  starts (Ascii.eqb ch) r = false ->
  starts is_digit r = false ->
  first_match (Seq (Ref g) (Seq (Grp g2 (digits (S n))) rest_re))
              (MState p r cs) k = None.
Proof.
  unfold is_sep. intros Hc L Hr Hd. apply orb_true_iff in Hc.
  rewrite fm_seq.
  destruct Hc as [Hc | Hc]; apply String.eqb_eq in Hc; subst c.
  - change r with ("" ++ r) at 1. rewrite (fm_ref _ _ _ _ _ _ L).
    rewrite fm_seq. unfold digits. now apply fm_grp_digits_miss.
  - unfold first_match. simpl. rewrite L.
    destruct r as [| c r]; [reflexivity |]. simpl in *. now rewrite Hr.
Qed.

End Forward.

Lemma starts_orb p q r :
  starts (fun c => p c || q c) r = false ->
  starts p r = false /\ starts q r = false.
Proof. destruct r; simpl; [auto |]. apply orb_false_iff. Qed.

Lemma time_char_split r :
  starts time_char r = false ->
  starts is_digit r = false /\ starts (Ascii.eqb ":") r = false /\
  starts (Ascii.eqb ".") r = false /\ starts (Ascii.eqb "T") r = false.
Proof.
  unfold time_char. intros H.
  apply starts_orb in H. destruct H as [H HT].
  apply starts_orb in H. destruct H as [H Hd].
  apply starts_orb in H. destruct H as [H Hc]. auto.
Qed.

Lemma tz_char_split r :
  starts tz_char r = false ->
  starts is_digit r = false /\ starts (Ascii.eqb ":") r = false /\
  starts (Ascii.eqb "Z") r = false /\ starts (Ascii.eqb "+") r = false /\
  starts (Ascii.eqb "-") r = false.
Proof.
  unfold tz_char. intros H.
  apply starts_orb in H. destruct H as [H H1].
  apply starts_orb in H. destruct H as [H H2].
  apply starts_orb in H. destruct H as [H H3].
  apply starts_orb in H. destruct H as [H H4]. auto.
Qed.

Lemma is_fraction_elim f :
  is_fraction f = true -> (1 <= length f <= 6)%nat /\ all_digits f = true.
Proof.
  unfold is_fraction. intros H.
  apply andb_true_iff in H. destruct H as [H D].
  apply andb_true_iff in H. destruct H as [L1 L2].
  apply Nat.leb_le in L1. apply Nat.leb_le in L2. auto.
Qed.

Section ForwardParts.

Context {A : Type}.
Implicit Type k : mstate -> option A.

Lemma k_at k q q' r c y :
  k (MState q r c) = Some y -> q' = q -> k (MState q' r c) = Some y.
Proof. now intros K ->. Qed.

(** Splits the conjunctions of a [_ok] hypothesis. *)
Ltac split_ok H :=
  cbn [time_ok tz_ok] in H; unfold date_ok in H;
  repeat match type of H with
  | (_ && _) = true =>
      let H' := fresh "Hok" in
      apply andb_true_iff in H; destruct H as [H H']
  end.

Ltac lengths :=
  cbn [time_text tz_text length]; rewrite ?length_app_s;
  cbn [length];
  repeat match goal with
  | H : is_digits _ ?w = true |- _ =>
      rewrite (is_digits_length _ _ H); clear H
  end; lia.

Ltac sep_starts :=
  match goal with
  | H : is_digits (S _) ?w = true |- starts _ (?w ++ _) = false =>
      apply (is_digits_starts _ _ _ _ H); intros;
      apply digit_not_lit; [reflexivity | assumption]
  end.

Lemma fm_grp_rep_greedy g lo hi f p r cs k y :
  all_digits f = true -> (lo <= length f <= hi)%nat ->
  starts is_digit r = false ->
  k (MState (p + length f) r ((g, f) :: cs)) = Some y ->
  first_match (Grp g (Rep lo hi Digit)) (MState p (f ++ r) cs) k = Some y.
Proof.
  intros D L Hr K. rewrite fm_grp. unfold first_match. cbn [run].
  apply (find_rep_greedy f lo hi p r cs _ y D L Hr).
  cbn [pos rest caps].
  replace (p + length f - p)%nat with (length f) by lia.
  now rewrite substring_prefix.
Qed.

Lemma fm_time t p r cs k y :
  time_ok t = true ->
  starts time_char r = false ->
  k (MState (p + length (time_text t)) r (time_groups t ++ cs)) = Some y ->
  first_match (opt time_re) (MState p (time_text t ++ r) cs) k = Some y.
Proof.
  intros Hok Hr K. apply time_char_split in Hr.
  destruct Hr as [Hd [Hc [Hp HT]]].
  destruct t as [| h | h c mi | h c mi s | h c mi s f]; split_ok Hok;
    cbn [time_text time_groups app] in *;
    rewrite ?app_assoc_s; cbn [append];
    unfold time_re, digits; cbn [seq]; fold (digits 2).
  - apply fm_opt_skip.
    + rewrite fm_seq. now apply fm_lit_miss.
    + eapply k_at; [exact K | simpl; lia].
  - apply fm_opt_take. rewrite fm_seq, fm_lit_hit, fm_seq.
    rewrite fm_grp_digits by assumption.
    apply fm_opt_skip.
    + rewrite fm_seq, fm_grp, fm_opt, fm_lit_miss by assumption.
      cbn [pos rest caps]. rewrite fm_seq. unfold digits.
      now apply fm_grp_digits_miss.
    + eapply k_at; [exact K | lengths].
  - apply fm_opt_take. rewrite fm_seq, fm_lit_hit, fm_seq.
    rewrite fm_grp_digits by assumption.
    apply fm_opt_take. rewrite fm_seq.
    apply fm_grp_sep; [assumption | sep_starts |].
    rewrite fm_seq, fm_grp_digits by assumption.
    apply fm_opt_skip.
    + eapply fm_ref_sep_miss; [eassumption | reflexivity | assumption ..].
    + eapply k_at; [exact K | lengths].
  - apply fm_opt_take. rewrite fm_seq, fm_lit_hit, fm_seq.
    rewrite fm_grp_digits by assumption.
    apply fm_opt_take. rewrite fm_seq.
    apply fm_grp_sep; [assumption | sep_starts |].
    rewrite fm_seq, fm_grp_digits by assumption.
    apply fm_opt_take. rewrite fm_seq.
    rewrite fm_ref by reflexivity.
    rewrite fm_seq, fm_grp_digits by assumption.
    apply fm_opt_skip.
    + rewrite fm_seq. now apply fm_lit_miss.
    + eapply k_at; [exact K | lengths].
  - apply fm_opt_take. rewrite fm_seq, fm_lit_hit, fm_seq.
    rewrite fm_grp_digits by assumption.
    apply fm_opt_take. rewrite fm_seq.
    apply fm_grp_sep; [assumption | sep_starts |].
    rewrite fm_seq, fm_grp_digits by assumption.
    apply fm_opt_take. rewrite fm_seq.
    rewrite fm_ref by reflexivity.
    rewrite fm_seq, fm_grp_digits by assumption.
    apply fm_opt_take. rewrite fm_seq, fm_lit_hit.
    match goal with H : is_fraction f = true |- _ =>
      apply is_fraction_elim in H; destruct H as [Lf Df] end.
    apply fm_grp_rep_greedy; [assumption | assumption | assumption |].
    eapply k_at; [exact K | lengths].
Qed.

Lemma fm_alt_left a b st k y :
  first_match a st k = Some y -> first_match (Alt a b) st k = Some y.
Proof. intros H. now rewrite fm_alt, H. Qed.

Lemma fm_alt_right a b st k y :
  first_match a st k = None -> first_match b st k = Some y ->
  first_match (Alt a b) st k = Some y.
Proof. intros H K. now rewrite fm_alt, H. Qed.

(** A group around a part that consumes the text [w]. *)
Lemma fm_grp_text g a w p r cs cs' k y :
  (forall k', k' (MState (p + length w) r cs') = Some y ->
              first_match a (MState p (w ++ r) cs) k' = Some y) ->
  k (MState (p + length w) r ((g, w) :: cs')) = Some y ->
  first_match (Grp g a) (MState p (w ++ r) cs) k = Some y.
Proof.
  intros Ha K. rewrite fm_grp. apply Ha. cbn [pos rest caps].
  replace (p + length w - p)%nat with (length w) by lia.
  now rewrite substring_prefix.
Qed.

Lemma is_sign_elim sg : is_sign sg = true -> sg = "+" \/ sg = "-".
Proof.
  unfold is_sign. intros H. apply orb_true_iff in H.
  destruct H as [H | H]; apply String.eqb_eq in H; auto.
Qed.

Lemma fm_grp_sign sg p r cs k y :
  is_sign sg = true ->
  k (MState (p + 1) r ((sign, sg) :: cs)) = Some y ->
  first_match (Grp sign (Alt (Lit "+") (Lit "-"))) (MState p (sg ++ r) cs) k
  = Some y.
Proof.
  intros Hs K. apply is_sign_elim in Hs.
  apply fm_grp_text with (cs' := cs).
  - intros k' K'. destruct Hs as [-> | ->]; cbn [append].
    + apply fm_alt_left. rewrite fm_lit_hit.
      eapply k_at; [exact K' | simpl; lia].
    + apply fm_alt_right; [now apply fm_lit_miss |].
      rewrite fm_lit_hit. eapply k_at; [exact K' | simpl; lia].
  - eapply k_at; [exact K | destruct Hs as [-> | ->]; reflexivity].
Qed.

Lemma fm_tz z p r cs k y :
  tz_ok z = true ->
  starts tz_char r = false ->
  k (MState (p + length (tz_text z)) r (tz_groups z ++ cs)) = Some y ->
  first_match (opt tz_re) (MState p (tz_text z ++ r) cs) k = Some y.
Proof.
  intros Hok Hr K. apply tz_char_split in Hr.
  destruct Hr as [Hd [Hc [HZ [Hplus Hminus]]]].
  destruct z as [| | sg h | sg h c m]; split_ok Hok;
    cbn [tz_groups app] in K; unfold tz_re, digits; cbn [seq]; fold (digits 2).
  - apply fm_opt_skip.
    + cbn [tz_text append]. rewrite fm_grp, fm_alt, fm_lit_miss by assumption.
      rewrite fm_seq, fm_grp, fm_alt, fm_lit_miss by assumption.
      now apply fm_lit_miss.
    + eapply k_at; [exact K | simpl; lia].
  - apply fm_opt_take. eapply fm_grp_text; [| exact K].
    intros k' K'. cbn [tz_text append]. apply fm_alt_left.
    rewrite fm_lit_hit. eapply k_at; [exact K' | simpl; lia].
  - apply fm_opt_take. eapply fm_grp_text; [| exact K].
    intros k' K'. cbn [tz_text]. rewrite app_assoc_s.
    apply fm_alt_right.
    + apply fm_lit_miss. cbn [rest].
      match goal with H : is_sign sg = true |- _ =>
        apply is_sign_elim in H; destruct H as [-> | ->]; reflexivity end.
    + rewrite fm_seq. apply fm_grp_sign; [assumption |].
      rewrite fm_seq, fm_grp_digits by assumption.
      apply fm_opt_skip.
      * rewrite fm_seq, fm_opt, fm_lit_miss by assumption.
        unfold digits. now apply fm_grp_digits_miss.
      * eapply k_at; [exact K' |].
        match goal with H : is_sign sg = true |- _ =>
          apply is_sign_elim in H; destruct H as [-> | ->] end; lengths.
  - apply fm_opt_take. eapply fm_grp_text; [| exact K].
    intros k' K'. cbn [tz_text]. rewrite ?app_assoc_s.
    apply fm_alt_right.
    + apply fm_lit_miss. cbn [rest].
      match goal with H : is_sign sg = true |- _ =>
        apply is_sign_elim in H; destruct H as [-> | ->]; reflexivity end.
    + rewrite fm_seq. apply fm_grp_sign; [assumption |].
      rewrite fm_seq, fm_grp_digits by assumption.
      apply fm_opt_take. rewrite fm_seq.
      apply fm_opt_sep; [assumption | sep_starts |].
      rewrite fm_grp_digits by assumption.
      eapply k_at; [exact K' |].
      match goal with H : is_sign sg = true |- _ =>
        apply is_sign_elim in H; destruct H as [-> | ->] end; lengths.
Qed.

End ForwardParts.

Lemma tz_text_not_time z e :
  tz_ok z = true -> e = "" \/ e = nl ->
  starts time_char (tz_text z ++ e) = false.
Proof.
  intros Hok He. destruct z as [| | sg h | sg h c m]; cbn [tz_ok] in Hok.
  - destruct He as [-> | ->]; reflexivity.
  - reflexivity.
  - apply andb_true_iff in Hok. destruct Hok as [Hs _].
    apply is_sign_elim in Hs. destruct Hs as [-> | ->]; reflexivity.
  - repeat (apply andb_true_iff in Hok; destruct Hok as [Hok _]).
    apply is_sign_elim in Hok. destruct Hok as [-> | ->]; reflexivity.
Qed.

(** Every date, optional time and optional timezone, with or without a
    final newline, is matched, and the groups are those of its parts. *)
Lemma rmatch_complete d t z e :
  date_ok d = true -> time_ok t = true -> tz_ok z = true ->
  e = "" \/ e = nl ->
  rmatch datetime_regex (all_text d t z ++ e) = Some (all_groups d t z).
Proof.
  intros Hd Ht Hz He.
  rewrite rmatch_first, datetime_regex_parts. cbn [seq].
  unfold all_text, date_text. destruct d as [y hy mo dd].
  unfold date_ok in Hd. cbn [d_year d_sep d_month d_day] in *.
  apply andb_true_iff in Hd. destruct Hd as [Hd Hdd].
  apply andb_true_iff in Hd. destruct Hd as [Hd Hmo].
  apply andb_true_iff in Hd. destruct Hd as [Hy Hhy].
  rewrite ?app_assoc_s.
  rewrite fm_seq, fm_bol, fm_seq, fm_grp_digits by assumption.
  rewrite fm_seq.
  apply fm_grp_sep; [assumption | |].
  { apply (is_digits_starts _ _ _ _ Hmo). intros.
    apply digit_not_lit; [reflexivity | assumption]. }
  rewrite fm_seq, fm_grp_digits by assumption.
  rewrite fm_seq, fm_ref by reflexivity.
  rewrite fm_seq, fm_grp_digits by assumption.
  rewrite fm_seq.
  apply fm_time; [assumption | now apply tz_text_not_time |].
  rewrite fm_seq.
  apply fm_tz; [assumption | destruct He as [-> | ->]; reflexivity |].
  rewrite fm_eol by assumption. reflexivity.
Qed.

(** ** Numbers *)

Lemma digit_val_range c : is_digit c = true -> 0 <= digit_val c <= 9.
Proof.
  unfold is_digit, digit_val. intros H. apply andb_true_iff in H.
  destruct H as [H1 H2]. apply Nat.leb_le in H1. apply Nat.leb_le in H2. lia.
Qed.

Lemma decimal_bounds w : all_digits w = true -> forall acc, 0 <= acc ->
  acc * 10 ^ Z.of_nat (length w) <= decimal acc w
  < (acc + 1) * 10 ^ Z.of_nat (length w).
Proof.
  induction w as [| c w IH]; intros D acc Hacc.
  - simpl. lia.
  - simpl in D. apply andb_true_iff in D. destruct D as [Dc Dw].
    pose proof (digit_val_range c Dc) as Hc.
    cbn [decimal length]. rewrite Nat2Z.inj_succ, Z.pow_succ_r by lia.
    specialize (IH Dw (10 * acc + digit_val c) ltac:(lia)).
    assert (0 < 10 ^ Z.of_nat (length w)) by (apply Z.pow_pos_nonneg; lia).
    nia.
Qed.

Lemma num_bounds n w :
  is_digits n w = true -> 0 <= num w < 10 ^ Z.of_nat n.
Proof.
  unfold is_digits, num. intros H. apply andb_true_iff in H. destruct H as [L D].
  apply Nat.eqb_eq in L. subst n.
  pose proof (decimal_bounds w D 0 ltac:(lia)). lia.
Qed.

Lemma py_int_digits n w : is_digits (S n) w = true -> py_int (Some w) = Ok (num w).
Proof.
  unfold is_digits, py_int, num. intros H. apply andb_true_iff in H.
  destruct H as [L D]. destruct w as [| c w]; [discriminate |]. now rewrite D.
Qed.

Lemma py_int_or_0_digits n w :
  is_digits (S n) w = true -> py_int_or_0 (Some w) = Ok (num w).
Proof.
  intros H. unfold py_int_or_0. rewrite (py_int_digits _ _ H).
  unfold is_digits in H. destruct w; [discriminate | reflexivity].
Qed.

(** ** The groups of a match, part by part *)

Lemma groups_date d t z :
  group_of (all_groups d t z) year = Some (d_year d) /\
  group_of (all_groups d t z) hyphen = Some (d_sep d) /\
  group_of (all_groups d t z) month = Some (d_month d) /\
  group_of (all_groups d t z) day = Some (d_day d).
Proof. destruct t, z; repeat split; reflexivity. Qed.

Lemma groups_time d t z :
  group_of (all_groups d t z) hour = hour_str t /\
  group_of (all_groups d t z) colon = colon_str t /\
  group_of (all_groups d t z) minute = minute_str t /\
  group_of (all_groups d t z) second = second_str t /\
  group_of (all_groups d t z) subsecond = fraction_str t.
Proof. destruct t, z; repeat split; reflexivity. Qed.

Lemma groups_tz d t z :
  group_of (all_groups d t z) timezone = tz_str z /\
  group_of (all_groups d t z) sign = sign_str z /\
  group_of (all_groups d t z) tz_hour = tz_hour_str z /\
  group_of (all_groups d t z) tz_minute = tz_minute_str z.
Proof. destruct t, z; repeat split; reflexivity. Qed.

Lemma in_range_iff lo x hi : in_range lo x hi = true <-> lo <= x <= hi.
Proof. unfold in_range. rewrite andb_true_iff, !Z.leb_le. tauto. Qed.

Lemma mk_timezone_ok h m sg :
  in_range 0 h 23 = true -> in_range 0 m 59 = true -> sg = 1 \/ sg = -1 ->
  mk_timezone (timedelta (h * sg) (m * sg)) = Ok (sg * (60 * h + m)).
Proof.
  intros Hh Hm Hs. apply in_range_iff in Hh. apply in_range_iff in Hm.
  unfold mk_timezone, timedelta.
  assert (E : (-1440 <? h * sg * 60 + m * sg) && (h * sg * 60 + m * sg <? 1440) = true).
  { apply andb_true_iff. rewrite !Z.ltb_lt. destruct Hs; subst sg; lia. }
  rewrite E. f_equal. destruct Hs; subst sg; lia.
Qed.

Lemma tzinfo_of_parts d t z :
  tz_ok z = true -> tzinfo_of (all_groups d t z) = tz_result z.
Proof.
  intros Hok. unfold tzinfo_of, tz_result.
  destruct (groups_tz d t z) as [-> [-> [-> ->]]].
  destruct z as [| | sg h | sg h c m]; cbn [tz_ok] in Hok; try reflexivity.
  - apply andb_true_iff in Hok. destruct Hok as [Hs Hh].
    assert (Hz : String.eqb (tz_text (TzH sg h)) "Z" = false).
    { apply is_sign_elim in Hs. destruct Hs as [-> | ->]; reflexivity. }
    cbn [tz_str]. rewrite Hz.
    cbn [tz_hour_str tz_minute_str sign_str].
    rewrite (py_int_digits _ _ Hh). cbn [bind].
    unfold tz_hour_of, tz_minute_of, raise_if. cbn [tz_hour_str tz_minute_str opt_num].
    destruct (in_range 0 (num h) 23) eqn:Rh; cbn [negb]; [| reflexivity].
    change (py_int_or_0 None) with (@Ok Z 0). cbn [bind].
    change (in_range 0 0 59) with true. cbn [negb].
    unfold offset_of, tz_sign, tz_hour_of, tz_minute_of.
    cbn [sign_str tz_hour_str tz_minute_str opt_num py_eq].
    rewrite mk_timezone_ok; [reflexivity | assumption | reflexivity |].
    destruct (String.eqb sg "+"); auto.
  - apply andb_true_iff in Hok. destruct Hok as [Hok Hm].
    apply andb_true_iff in Hok. destruct Hok as [Hok Hc].
    apply andb_true_iff in Hok. destruct Hok as [Hs Hh].
    assert (Hz : String.eqb (tz_text (TzHM sg h c m)) "Z" = false).
    { apply is_sign_elim in Hs. destruct Hs as [-> | ->]; reflexivity. }
    cbn [tz_str]. rewrite Hz.
    cbn [tz_hour_str tz_minute_str sign_str].
    rewrite (py_int_digits _ _ Hh). cbn [bind].
    unfold tz_hour_of, tz_minute_of, raise_if. cbn [tz_hour_str tz_minute_str opt_num].
    destruct (in_range 0 (num h) 23) eqn:Rh; cbn [negb]; [| reflexivity].
    rewrite (py_int_or_0_digits _ _ Hm). cbn [bind].
    destruct (in_range 0 (num m) 59) eqn:Rm; cbn [negb]; [| reflexivity].
    unfold offset_of, tz_sign, tz_hour_of, tz_minute_of.
    cbn [sign_str tz_hour_str tz_minute_str opt_num py_eq].
    rewrite mk_timezone_ok; [reflexivity | assumption | assumption |].
    destruct (String.eqb sg "+"); auto.
Qed.

(** ** The microsecond computation *)

Lemma digits2_pos_bound (m : positive) : Z.pos m < 2 ^ Z.pos (digits2_pos m).
Proof.
  induction m as [m IH | m IH |]; simpl digits2_pos;
    rewrite ?Pos2Z.inj_succ, ?Z.pow_succ_r by lia; lia.
Qed.

Lemma trunc_small_eq (m : positive) :
  (m < 8589934592000000)%positive ->
  0 <= Z.pos m / 8589934592 <= 999999.
Proof.
  intros Hlt.
  assert (H : Z.pos m < 8589934592 * 1000000) by (apply Pos2Z.pos_lt_pos in Hlt; exact Hlt).
 
  split.
  - apply Z.div_pos; [apply Pos2Z.is_nonneg | reflexivity].
  - apply Z.lt_succ_r. apply Z.div_lt_upper_bound; [reflexivity | exact H].
Qed.

Lemma trunc_small_lt (m : positive) (e : Z) :
  Z.pos m < 2 ^ 53 -> e < -33 ->
  0 <= Z.pos m / 2 ^ (- e) <= 999999.
Proof.
  intros Hm He.
  assert (Hp : 2 ^ 34 <= 2 ^ (- e)) by (apply Z.pow_le_mono_r; lia).
  assert (Hpos : 0 < 2 ^ (- e)) by (apply Z.pow_pos_nonneg; lia).
 
  split.
  - apply Z.div_pos; [apply Pos2Z.is_nonneg | exact Hpos].
  - apply Z.lt_succ_r. apply Z.div_lt_upper_bound; [exact Hpos |].
   
    apply Z.lt_le_trans with (2 ^ 53); [exact Hm |].
    apply Z.le_trans with (2 ^ 34 * Z.succ 999999).
    + vm_compute. discriminate.
    + apply Z.mul_le_mono_nonneg_r; [vm_compute; discriminate | exact Hp].
Qed.

Lemma million_SF :
  Prim2SF (float_of_Z 1000000) = S754_finite false 8589934592000000 (-33).
Proof. vm_compute. reflexivity. Qed.

Lemma zero_SF : Prim2SF (float_of_Z 0) = S754_zero false.
Proof. vm_compute. reflexivity. Qed.

Lemma int_of_float_below (y : float) :
  below_million y = true ->
  exists v, int_of_float y = Ok v /\ 0 <= v <= 999999.
Proof.
  unfold below_million, int_of_float.
  rewrite andb_true_iff, FloatAxioms.leb_spec, FloatAxioms.ltb_spec, million_SF, zero_SF.
  pose proof (Prim2SF_valid y) as Hv.
  destruct (Prim2SF y) as [s | s | | s m e].
  - intros _. exists 0. split; [reflexivity | split; discriminate].
  - destruct s; intros [H1 H2]; discriminate.
  - intros [H1 H2]; discriminate.
  - destruct s; intros [H1 H2]; try discriminate.
    unfold valid_binary, bounded, canonical_mantissa, fexp in Hv.
    apply andb_true_iff in Hv. destruct Hv as [Hc _].
    apply Z.eqb_eq in Hc.
    pose proof (digits2_pos_bound m) as Hd.
    assert (Hdig : Z.pos (digits2_pos m) <= 53) by (unfold prec in Hc; lia).
    assert (Hm : Z.pos m < 2 ^ 53).
    { eapply Z.lt_le_trans; [exact Hd |].
      apply Z.pow_le_mono_r; lia. }
    unfold SFltb, SFcompare in H2.
    destruct (e ?= -33) eqn:He; [ | | discriminate H2].
    + apply Z.compare_eq in He. subst e.
      destruct (Pos.compare_cont Eq m 8589934592000000) eqn:Hcmp;
        [discriminate H2 | | discriminate H2].
      exists (Z.pos m / 8589934592).
      split; [reflexivity | apply trunc_small_eq; exact Hcmp].
    + rewrite Z.compare_lt_iff in He.
      assert (Hneg : (0 <=? e) = false) by (apply Z.leb_gt; lia).
      rewrite Hneg.
      exists (Z.pos m / 2 ^ (- e)).
      split; [reflexivity | apply trunc_small_lt; assumption].
Qed.

Lemma all_below_spec n : forall a k,
  all_below n a k = true ->
  forall d, a <= d < a + Z.of_nat n -> below_million (micro_float d k) = true.
Proof.
  induction n as [| n IH]; intros a k H d Hd.
  - simpl in Hd. lia.
  - cbn [all_below] in H. apply andb_true_iff in H. destruct H as [H0 H].
    destruct (Z.eq_dec d a) as [-> | Hne]; [exact H0 |].
    apply (IH (a + 1) k H). lia.
Qed.

(** Every fraction of one to six digits, checked one by one. *)
Lemma all_fractions_below :
  forallb (fun k => all_below (10 ^ k)%nat 0 (Z.of_nat k)) [1; 2; 3; 4; 5; 6]%nat
  = true.
Proof. vm_compute. reflexivity. Qed.

Lemma micro_float_below d k :
  (1 <= k <= 6)%nat -> 0 <= d < 10 ^ Z.of_nat k ->
  below_million (micro_float d (Z.of_nat k)) = true.
Proof.
  intros Hk Hd. pose proof all_fractions_below as H.
  rewrite forallb_forall in H.
  assert (Hin : In k [1; 2; 3; 4; 5; 6]%nat) by (simpl; lia).
  specialize (H k Hin).
  apply (all_below_spec _ _ _ H).
  rewrite Nat2Z.inj_pow. simpl Z.of_nat at 2. lia.
Qed.

Lemma microsecond_of_range f :
  is_fraction f = true ->
  exists v, microsecond_of (Some f) = Ok v /\ 0 <= v <= 999999.
Proof.
  intros H. apply is_fraction_elim in H. destruct H as [L D].
  unfold microsecond_of, float_of_fraction.
  change (PrimFloat.mul
            (PrimFloat.div (float_of_Z (decimal 0 f))
                           (float_of_Z (10 ^ Z.of_nat (length f))))
            (float_of_Z 1000000))
    with (micro_float (decimal 0 f) (Z.of_nat (length f))).
  apply int_of_float_below. apply micro_float_below; [exact L |].
  pose proof (decimal_bounds f D 0 ltac:(lia)). lia.
Qed.

(** ** The parser on the parts of a match *)

Lemma py_bool_nonempty w : py_bool (Some w) = nonempty w.
Proof. destruct w; reflexivity. Qed.

Lemma consistent_code d t :
  negb (is_none (colon_str t))
  && negb (Bool.eqb (py_bool (Some (d_sep d))) (py_bool (colon_str t)))
  = negb (consistent d t).
Proof.
  unfold consistent. destruct (colon_str t) as [c |]; [| reflexivity].
  now rewrite !py_bool_nonempty.
Qed.

Lemma time_fields t :
  time_ok t = true ->
  py_int_or_0 (hour_str t) = Ok (hour_of t) /\
  py_int_or_0 (minute_str t) = Ok (minute_of t) /\
  py_int_or_0 (second_str t) = Ok (second_of t).
Proof.
  intros H. unfold hour_of, minute_of, second_of.
  destruct t; cbn [time_ok] in H;
    repeat match type of H with
    | (_ && _) = true =>
        let H' := fresh "H" in apply andb_true_iff in H; destruct H as [H H']
    end;
    cbn [hour_str minute_str second_str opt_num];
    repeat split; try reflexivity;
    eapply py_int_or_0_digits; eassumption.
Qed.

Lemma micro_of_parts t :
  time_ok t = true ->
  microsecond_of (fraction_str t) = Ok (micro_of t) /\ 0 <= micro_of t <= 999999.
Proof.
  intros H. unfold micro_of.
  destruct t; cbn [fraction_str]; try (split; [reflexivity | simpl; lia]).
  cbn [time_ok] in H. apply andb_true_iff in H. destruct H as [_ Hf].
  destruct (microsecond_of_range _ Hf) as [v [E R]]. now rewrite E.
Qed.

Lemma days_in_february_leap y :
  days_in_february y = if leap_year y then 29 else 28.
Proof.
  unfold days_in_february, leap_year.
  destruct (y mod 4 =? 0), (y mod 100 =? 0), (y mod 400 =? 0); reflexivity.
Qed.

Lemma lib_is_leap_leap_year y : lib_is_leap y = leap_year y.
Proof.
  unfold lib_is_leap, leap_year.
  destruct (y mod 4 =? 0), (y mod 100 =? 0), (y mod 400 =? 0); reflexivity.
Qed.

Lemma lib_days_in_month_max_day y m : lib_days_in_month y m = max_day y m.
Proof. unfold lib_days_in_month, max_day. now rewrite lib_is_leap_leap_year. Qed.

Lemma dict_get_days_in_month y m :
  in_range 1 m 12 = true -> dict_get (days_in_month y) m = Ok (max_day y m).
Proof.
  intros H. apply in_range_iff in H.
  assert (C : m = 1 \/ m = 2 \/ m = 3 \/ m = 4 \/ m = 5 \/ m = 6 \/ m = 7 \/
              m = 8 \/ m = 9 \/ m = 10 \/ m = 11 \/ m = 12) by lia.
  unfold days_in_month, max_day. rewrite days_in_february_leap.
  repeat (destruct C as [-> | C]; [reflexivity |]). subst m. reflexivity.
Qed.

Lemma mk_datetime_ok y mo d h mi s us tz :
  in_range 1 y 9999 = true -> in_range 1 mo 12 = true ->
  in_range 1 d (max_day y mo) = true ->
  in_range 0 h 23 = true -> in_range 0 mi 59 = true -> in_range 0 s 59 = true ->
  in_range 0 us 999999 = true ->
  mk_datetime y mo d h mi s us tz = Ok (Datetime y mo d h mi s us tz).
Proof.
  intros Hy Hmo Hd Hh Hmi Hs Hus. unfold mk_datetime.
  rewrite lib_days_in_month_max_day, Hy, Hmo, Hd, Hh, Hmi, Hs, Hus. reflexivity.
Qed.

(** On the groups of a date, a time and a timezone, the body of the
    parser is the ordered validation. *)
Lemma parse_match_parts d t z :
  date_ok d = true -> time_ok t = true -> tz_ok z = true ->
  parse_match (all_groups d t z) = validate d t z.
Proof.
  intros Hd Ht Hz. unfold parse_match.
  destruct (groups_date d t z) as [-> [-> [-> ->]]].
  destruct (groups_time d t z) as [-> [-> [-> [-> ->]]]].
  rewrite consistent_code, (tzinfo_of_parts d t z Hz).
  destruct (time_fields t Ht) as [-> [-> ->]].
  destruct (micro_of_parts t Ht) as [-> Hus].
  unfold date_ok in Hd.
  apply andb_true_iff in Hd. destruct Hd as [Hd Hdd].
  apply andb_true_iff in Hd. destruct Hd as [Hd Hmo].
  apply andb_true_iff in Hd. destruct Hd as [Hy Hhy].
  rewrite (py_int_digits _ _ Hy), (py_int_digits _ _ Hmo), (py_int_digits _ _ Hdd).
  pose proof (num_bounds _ _ Hy) as By.
  fold (year_of d) in *. fold (month_of d) (day_of d).
  unfold validate, first_violation, violations, checks, tz_result, raise_if.
  cbn [bind filter map hd_error fst snd].
  destruct (consistent d t); cbn [negb hd_error map]; [| reflexivity].
  replace (year_of d <? 1) with (negb (1 <=? year_of d))
    by (rewrite Z.ltb_antisym, Z.leb_antisym; now rewrite negb_involutive).
  destruct (1 <=? year_of d) eqn:Cy; cbn [negb hd_error map]; [| reflexivity].
  destruct (in_range 1 (month_of d) 12) eqn:Cmo; cbn [negb hd_error map];
    [| reflexivity].
  destruct (in_range 0 (hour_of t) 23) eqn:Ch; cbn [negb hd_error map];
    [| reflexivity].
  destruct (in_range 0 (minute_of t) 59) eqn:Cmi; cbn [negb hd_error map];
    [| reflexivity].
  destruct (in_range 0 (second_of t) 59) eqn:Cs; cbn [negb hd_error map];
    [| reflexivity].
  destruct (in_range 0 (tz_hour_of z) 23) eqn:Ctzh; cbn [negb hd_error map bind];
    [| reflexivity].
  destruct (in_range 0 (tz_minute_of z) 59) eqn:Ctzm; cbn [negb hd_error map bind];
    [| reflexivity].
  rewrite (dict_get_days_in_month _ _ Cmo). cbn [bind].
  unfold in_range at 1.
  destruct (1 <=? day_of d) eqn:Cd1; cbn [negb andb hd_error map]; [| reflexivity].
  destruct (day_of d <=? max_day (year_of d) (month_of d)) eqn:Cd2;
    cbn [negb hd_error map]; [| reflexivity].
  apply mk_datetime_ok; try assumption.
  - apply in_range_iff. apply Z.leb_le in Cy. simpl in By. lia.
  - unfold in_range. now rewrite Cd1, Cd2.
  - apply in_range_iff. exact Hus.
Qed.

(** ** The parser on strings *)

Lemma parse_iso8601_parts d t z e :
  date_ok d = true -> time_ok t = true -> tz_ok z = true ->
  e = "" \/ e = nl ->
  parse_iso8601 (all_text d t z ++ e) = validate d t z.
Proof.
  intros Hd Ht Hz He. unfold parse_iso8601.
  rewrite (rmatch_complete d t z e Hd Ht Hz He).
  now apply parse_match_parts.
Qed.

Lemma parse_iso8601_cases s :
  (rmatch datetime_regex s = None /\ parse_iso8601 s = Raise NoMatch) \/
  exists d t z e,
    date_ok d = true /\ time_ok t = true /\ tz_ok z = true /\
    (e = "" \/ e = nl) /\ s = all_text d t z ++ e /\
    parse_iso8601 s = validate d t z.
Proof.
  unfold parse_iso8601. destruct (rmatch datetime_regex s) as [m |] eqn:R.
  - right. destruct (rmatch_shape s m R) as [d [t [z [e [Hd [Ht [Hz [He [Hs Hm]]]]]]]]].
    exists d, t, z, e. subst m. repeat (split; [assumption |]).
    now apply parse_match_parts.
  - left. split; reflexivity.
Qed.

(** ** The ordered rules *)

Lemma validate_valid d t z :
  valid d t z = true -> validate d t z = Ok (timestamp_of d t z).
Proof.
  unfold valid, validate, first_violation, violations.
  generalize (checks d t z). intros l H.
  assert (E : filter (fun c => negb (fst c)) l = []).
  { induction l as [| c l IH]; [reflexivity |]. simpl in *.
    apply andb_true_iff in H. destruct H as [Hc Hl]. rewrite Hc. simpl. auto. }
  now rewrite E.
Qed.

Lemma first_violation_none d t z :
  first_violation d t z = None <-> valid d t z = true.
Proof.
  unfold first_violation, violations, valid.
  generalize (checks d t z). intros l.
  induction l as [| [b e] l IH]; simpl; [tauto |].
  destruct b; simpl; [exact IH |]. split; discriminate.
Qed.

(** The rule at position [n] is reported when it is violated and the
    rules before it hold. *)
Lemma first_violation_at (l : list (bool * exn)) n e :
  forallb fst (firstn n l) = true -> nth_error l n = Some (false, e) ->
  hd_error (map snd (filter (fun c => negb (fst c)) l)) = Some e.
Proof.
  revert l. induction n as [| n IH]; intros [| [b e'] l] H N; try discriminate.
  - simpl in N. injection N as -> ->. reflexivity.
  - simpl in *. apply andb_true_iff in H. destruct H as [-> H]. simpl.
    now apply IH.
Qed.

Lemma validate_at d t z n e :
  passes_before n d t z = true ->
  nth_error (checks d t z) n = Some (false, e) ->
  validate d t z = Raise e.
Proof.
  intros H N. unfold validate, first_violation, violations.
  now rewrite (first_violation_at _ n e H N).
Qed.

(** A violated rule: the parser reports a violated rule. *)
Lemma validate_invalid d t z :
  valid d t z = false ->
  exists e, validate d t z = Raise e /\ In e (violations d t z).
Proof.
  intros H. unfold validate, first_violation.
  destruct (violations d t z) as [| e l] eqn:V.
  - assert (first_violation d t z = None) by (unfold first_violation; now rewrite V).
    apply first_violation_none in H0. congruence.
  - exists e. split; [reflexivity | now left].
Qed.

Lemma violations_own d t z e : In e (violations d t z) -> own_error e.
Proof.
  unfold violations. intros H. apply in_map_iff in H.
  destruct H as [[b e'] [E H]]. simpl in E. subst e'.
  apply filter_In in H. destruct H as [H _]. unfold checks in H. simpl in H.
  unfold own_error.
  repeat (destruct H as [H | H];
          [injection H as _ <-; eauto 6 |]).
  destruct H.
Qed.

Lemma validate_own d t z e : validate d t z = Raise e -> own_error e.
Proof.
  unfold validate. destruct (first_violation d t z) as [e' |] eqn:F; [| discriminate].
  intros [= <-]. apply (violations_own d t z).
  unfold first_violation in F. destruct (violations d t z); [discriminate |].
  injection F as ->. now left.
Qed.

Lemma validate_not_nomatch d t z : validate d t z <> Raise NoMatch.
Proof.
  intros H. unfold validate in H.
  destruct (first_violation d t z) as [e |] eqn:F; [| discriminate].
  injection H as ->.
  assert (In NoMatch (violations d t z)).
  { unfold first_violation in F. destruct (violations d t z); [discriminate |].
    injection F as ->. now left. }
  unfold violations in H. apply in_map_iff in H.
  destruct H as [[b e'] [E H]]. simpl in E. subst e'.
  apply filter_In in H. destruct H as [H _]. unfold checks in H. simpl in H.
  repeat (destruct H as [H | H]; [discriminate H |]). destruct H.
Qed.

Lemma validate_inconsistent d t z :
  validate d t z = Raise InconsistentFormat <-> consistent d t = false.
Proof.
  split.
  - intros H. destruct (consistent d t) eqn:C; [| reflexivity]. exfalso.
    unfold validate in H.
    destruct (first_violation d t z) as [e |] eqn:F; [| discriminate].
    injection H as ->.
    assert (I : In InconsistentFormat (violations d t z)).
    { unfold first_violation in F. destruct (violations d t z); [discriminate |].
      injection F as ->. now left. }
    unfold violations in I. apply in_map_iff in I.
    destruct I as [[b e'] [E I]]. simpl in E. subst e'.
    apply filter_In in I. destruct I as [I Hb]. unfold checks in I. simpl in I.
    destruct I as [I | I].
    + injection I as <-. simpl in Hb. rewrite C in Hb. discriminate Hb.
    + repeat (destruct I as [I | I]; [discriminate I |]). destruct I.
  - intros C. apply (validate_at d t z 0); [reflexivity |].
    unfold checks. simpl. now rewrite C.
Qed.

(** ** Fixed-width decimal fields *)

Lemma digit_char_ok k :
  0 <= k <= 9 -> is_digit (digit_char k) = true /\ digit_val (digit_char k) = k.
Proof.
  intros H.
  assert (C : k = 0 \/ k = 1 \/ k = 2 \/ k = 3 \/ k = 4 \/ k = 5 \/ k = 6 \/
              k = 7 \/ k = 8 \/ k = 9) by lia.
  repeat (destruct C as [-> | C]; [split; reflexivity |]).
  subst k. split; reflexivity.
Qed.

Lemma pad2_ok n : 0 <= n <= 99 -> is_digits 2 (pad2 n) = true /\ num (pad2 n) = n.
Proof.
  intros H.
  pose proof (Z.div_mod n 10 ltac:(lia)) as E.
  pose proof (Z.mod_pos_bound n 10 ltac:(lia)) as B.
  destruct (digit_char_ok (n / 10)) as [D1 V1]; [lia |].
  destruct (digit_char_ok (n mod 10)) as [D2 V2]; [lia |].
  unfold pad2, is_digits, num. cbn [length all_digits decimal].
  rewrite D1, D2, V1, V2. split; [reflexivity | lia].
Qed.

Lemma pad4_ok n :
  0 <= n <= 9999 -> is_digits 4 (pad4 n) = true /\ num (pad4 n) = n.
Proof.
  intros H.
  pose proof (Z.div_mod n 10 ltac:(lia)) as E1.
  pose proof (Z.div_mod (n / 10) 10 ltac:(lia)) as E2.
  pose proof (Z.div_mod (n / 100) 10 ltac:(lia)) as E3.
  pose proof (Z.mod_pos_bound n 10 ltac:(lia)) as B1.
  pose proof (Z.mod_pos_bound (n / 10) 10 ltac:(lia)) as B2.
  pose proof (Z.mod_pos_bound (n / 100) 10 ltac:(lia)) as B3.
  assert (E10 : n / 10 / 10 = n / 100) by (rewrite Z.div_div by lia; reflexivity).
  assert (E100 : n / 100 / 10 = n / 1000) by (rewrite Z.div_div by lia; reflexivity).
  rewrite E10 in E2. rewrite E100 in E3.
  destruct (digit_char_ok (n / 1000)) as [D4 V4]; [lia |].
  destruct (digit_char_ok (n / 100 mod 10)) as [D3 V3]; [lia |].
  destruct (digit_char_ok (n / 10 mod 10)) as [D2 V2]; [lia |].
  destruct (digit_char_ok (n mod 10)) as [D1 V1]; [lia |].
  unfold pad4, is_digits, num. cbn [length all_digits decimal].
  rewrite D1, D2, D3, D4, V1, V2, V3, V4. split; [reflexivity | lia].
Qed.

Lemma max_day_bounds y m : 28 <= max_day y m <= 31.
Proof.
  unfold max_day.
  destruct (m =? 2); [destruct (leap_year y); lia |].
  destruct ((m =? 4) || (m =? 6) || (m =? 9) || (m =? 11)); lia.
Qed.

(** What holds of the fields once no rule is violated. *)
Lemma construction_parts d t z :
  date_ok d = true -> time_ok t = true -> tz_ok z = true ->
  first_violation d t z = None ->
  year_of d <= 9999 /\ 0 <= micro_of t <= 999999 /\ valid d t z = true.
Proof.
  intros Hd Ht Hz F. apply first_violation_none in F.
  destruct (micro_of_parts t Ht) as [_ Bus].
  split; [| split; assumption].
  unfold date_ok in Hd. rewrite !andb_true_iff in Hd.
  destruct Hd as [[[Dy _] _] _]. pose proof (num_bounds _ _ Dy) as B.
  unfold year_of. simpl in B. lia.
Qed.

Lemma nomatch_of_not_accepted s : ~ accepted s -> parse_iso8601 s = Raise NoMatch.
Proof.
  intros N. destruct (parse_iso8601_cases s) as [[_ H] | H]; [exact H |].
  exfalso. apply N. destruct H as [d [t [z [e H]]]].
  exists d, t, z, e. tauto.
Qed.

(** * The claims *)

Lemma valid_intro d t z :
  consistent d t = true -> 1 <= year_of d -> 1 <= month_of d <= 12 ->
  0 <= hour_of t <= 23 -> 0 <= minute_of t <= 59 -> 0 <= second_of t <= 59 ->
  0 <= tz_hour_of z <= 23 -> 0 <= tz_minute_of z <= 59 ->
  1 <= day_of d <= max_day (year_of d) (month_of d) ->
  valid d t z = true.
Proof.
  intros C Hy Hmo Hh Hmi Hs Hzh Hzm Hd. unfold valid, checks. cbn [forallb fst].
  rewrite C. apply Z.leb_le in Hy. rewrite Hy.
  rewrite <- in_range_iff in Hmo, Hh, Hmi, Hs, Hzh, Hzm, Hd.
  now rewrite Hmo, Hh, Hmi, Hs, Hzh, Hzm, Hd.
Qed.

Lemma valid_elim d t z :
  valid d t z = true ->
  consistent d t = true /\ 1 <= year_of d /\ 1 <= month_of d <= 12 /\
  0 <= hour_of t <= 23 /\ 0 <= minute_of t <= 59 /\ 0 <= second_of t <= 59 /\
  0 <= tz_hour_of z <= 23 /\ 0 <= tz_minute_of z <= 59 /\
  1 <= day_of d <= max_day (year_of d) (month_of d).
Proof.
  unfold valid, checks. cbn [forallb fst]. rewrite !andb_true_iff.
  rewrite !in_range_iff, Z.leb_le. tauto.
Qed.

(** C1. For every year Y in 1583..9999, month M in 1..12 and day D within
    the calendar bounds of that year and month, the date-only string
    [YYYY-MM-DD] parses to the timestamp with that year, month and day, zero
    hour, minute, second and microsecond, and no UTC offset. *)
Theorem date_only_parses (Y M D : Z) :
  1583 <= Y <= 9999 -> 1 <= M <= 12 -> 1 <= D <= max_day Y M ->
  parse_iso8601 (pad4 Y ++ "-" ++ pad2 M ++ "-" ++ pad2 D)
  = Ok (Datetime Y M D 0 0 0 0 None).
Proof.
  intros HY HM HD.
  pose proof (max_day_bounds Y M) as Bd.
  destruct (pad4_ok Y ltac:(lia)) as [Dy Ny].
  destruct (pad2_ok M ltac:(lia)) as [Dm Nm].
  destruct (pad2_ok D ltac:(lia)) as [Dd Nd].
  set (d := DatePart (pad4 Y) "-" (pad2 M) (pad2 D)).
  change (pad4 Y ++ "-" ++ pad2 M ++ "-" ++ pad2 D)
    with (all_text d NoTime NoTz ++ "").
  rewrite parse_iso8601_parts;
    [| unfold date_ok, d; cbn [d_year d_sep d_month d_day];
       now rewrite Dy, Dm, Dd
     | reflexivity | reflexivity | now left].
  rewrite validate_valid.
  - unfold timestamp_of, year_of, month_of, day_of, d.
    cbn [d_year d_month d_day]. now rewrite Ny, Nm, Nd.
  - apply valid_intro; unfold year_of, month_of, day_of, d;
      cbn [d_year d_month d_day]; rewrite ?Ny, ?Nm, ?Nd;
      first [reflexivity | lia | (cbn; lia)].
Qed.

Lemma date_only_parses_witness :
  parse_iso8601 "2017-01-08" = Ok (Datetime 2017 1 8 0 0 0 0 None).
Proof.
  refine (date_only_parses 2017 1 8 _ _ _); cbv; split; discriminate.
Defined.

(** C2. Whenever a time part with a minute is present and its separator style
    (colon or none) differs from the date's (hyphen or none), parsing fails
    with the truncation-inconsistency error, whatever else the input
    holds. *)
Theorem mixed_truncation_fails d t z e c :
  date_ok d = true -> time_ok t = true -> tz_ok z = true ->
  e = "" \/ e = nl ->
  colon_str t = Some c -> nonempty (d_sep d) <> nonempty c ->
  parse_iso8601 (all_text d t z ++ e) = Raise InconsistentFormat.
Proof.
  intros Hd Ht Hz He Hc Hne.
  rewrite parse_iso8601_parts by assumption.
  apply validate_inconsistent. unfold consistent. rewrite Hc.
  destruct (nonempty (d_sep d)), (nonempty c); try reflexivity; congruence.
Qed.

Lemma mixed_truncation_fails_witness :
  parse_iso8601 "2019-10-01T1223" = Raise InconsistentFormat.
Proof.
  refine (mixed_truncation_fails (DatePart "2019" "-" "10" "01")
            (TimeHM "12" "" "23") NoTz "" "" _ _ _ _ _ _);
    first [reflexivity | now left | discriminate].
Defined.

Example mixed_truncation_truncated_date :
  parse_iso8601 "20191001T12:23" = Raise InconsistentFormat.
Proof. vm_compute. reflexivity. Qed.

Lemma leap_year_iff y :
  leap_year y = true <->
  (y mod 4 = 0 /\ ~ (y mod 100 = 0 /\ y mod 400 <> 0)).
Proof.
  unfold leap_year. rewrite andb_true_iff, negb_true_iff, andb_false_iff,
    negb_false_iff, !Z.eqb_eq, Z.eqb_neq.
  split.
  - intros [H4 H]. split; [exact H4 |]. intros [H100 H400]. destruct H; congruence.
  - intros [H4 H]. split; [exact H4 |].
    destruct (Z.eq_dec (y mod 100) 0) as [H100 | H100]; [| now left].
    right. destruct (Z.eq_dec (y mod 400) 0) as [H400 | H400]; [exact H400 |].
    exfalso. apply H. split; assumption.
Qed.

(** C3. February has 29 days exactly in the years divisible by 4 that are
    not century years indivisible by 400, and 28 otherwise; the table gives
    the greatest day of the month; once the rules before it hold, the day must
    lie between 1 and that bound, and the parse fails with [DayOutOfRange]
    exactly when it does not. *)
Theorem leap_year_day_rule (y : Z) d t z e :
  date_ok d = true -> time_ok t = true -> tz_ok z = true ->
  e = "" \/ e = nl ->
  passes_before 8 d t z = true ->
  (days_in_february y = 29 <->
   (y mod 4 = 0 /\ ~ (y mod 100 = 0 /\ y mod 400 <> 0))) /\
  (days_in_february y = 29 \/ days_in_february y = 28) /\
  dict_get (days_in_month y) 2 = Ok (days_in_february y) /\
  exists bound,
    dict_get (days_in_month (year_of d)) (month_of d) = Ok bound /\
    bound = max_day (year_of d) (month_of d) /\
    (1 <= day_of d <= bound ->
     parse_iso8601 (all_text d t z ++ e) = Ok (timestamp_of d t z)) /\
    (~ (1 <= day_of d <= bound) ->
     parse_iso8601 (all_text d t z ++ e) = Raise DayOutOfRange).
Proof.
  intros Hd Ht Hz He P.
  rewrite parse_iso8601_parts by assumption.
  split; [| split; [| split]].
  - rewrite days_in_february_leap, <- leap_year_iff.
    destruct (leap_year y); split; intros; try reflexivity; discriminate.
  - rewrite days_in_february_leap. destruct (leap_year y); auto.
  - reflexivity.
  - exists (max_day (year_of d) (month_of d)).
    assert (Hmo : in_range 1 (month_of d) 12 = true).
    { unfold passes_before, checks in P. cbn [firstn forallb fst] in P.
      rewrite !andb_true_iff in P. tauto. }
    split; [now apply dict_get_days_in_month |]. split; [reflexivity |]. split.
    + intros Hday. apply validate_valid. unfold valid.
      unfold passes_before, checks in P. cbn [firstn forallb fst] in P.
      unfold checks. cbn [forallb fst].
      apply in_range_iff in Hday. rewrite Hday.
      rewrite !andb_true_iff in *. tauto.
    + intros Hday. apply (validate_at d t z 8 DayOutOfRange P).
      unfold checks. cbn [nth_error]. do 2 f_equal.
      rewrite <- in_range_iff in Hday. now apply not_true_is_false.
Qed.

Lemma leap_year_day_rule_witness :
  (days_in_february 2000 = 29 <->
   (2000 mod 4 = 0 /\ ~ (2000 mod 100 = 0 /\ 2000 mod 400 <> 0))) /\
  parse_iso8601 "2000-02-29" = Ok (Datetime 2000 2 29 0 0 0 0 None).
Proof.
  destruct (leap_year_day_rule 2000 (DatePart "2000" "-" "02" "29") NoTime NoTz ""
              eq_refl eq_refl eq_refl (or_introl eq_refl) eq_refl)
    as [L [_ [_ [bound [_ [B [Hin _]]]]]]].
  split; [exact L |]. apply Hin. rewrite B. cbv. split; discriminate.
Defined.

Example leap_2004_02_29 :
  parse_iso8601 "2004-02-29" = Ok (Datetime 2004 2 29 0 0 0 0 None).
Proof. vm_compute. reflexivity. Qed.

Example century_1900_02_29 : parse_iso8601 "1900-02-29" = Raise DayOutOfRange.
Proof. vm_compute. reflexivity. Qed.

Example leap_2004_02_30 : parse_iso8601 "2004-02-30" = Raise DayOutOfRange.
Proof. vm_compute. reflexivity. Qed.

(** C4. On a valid input the sign of a signed timezone applies to the hours
    and to the minutes, which gives one signed number of minutes; [Z] gives
    the offset zero; without a timezone the result has no offset, which is
    not the offset zero. *)
Theorem timezone_offset d t z e :
  date_ok d = true -> time_ok t = true -> tz_ok z = true ->
  e = "" \/ e = nl ->
  valid d t z = true ->
  exists dt,
    parse_iso8601 (all_text d t z ++ e) = Ok dt /\
    dt_tzinfo dt = offset_of z /\
    match z with
    | NoTz => dt_tzinfo dt = None
    | TzZ => dt_tzinfo dt = Some 0
    | TzH sg h =>
        dt_tzinfo dt = Some ((if String.eqb sg "+" then 1 else -1) * (60 * num h))
    | TzHM sg h _ m =>
        dt_tzinfo dt =
        Some ((if String.eqb sg "+" then 1 else -1) * (60 * num h + num m))
    end /\
    (None : option Z) <> Some 0.
Proof.
  intros Hd Ht Hz He V. exists (timestamp_of d t z).
  rewrite parse_iso8601_parts by assumption.
  split; [now apply validate_valid |]. split; [reflexivity |].
  split; [| discriminate].
  destruct z; cbn [timestamp_of dt_tzinfo offset_of]; try reflexivity.
  unfold tz_sign, tz_hour_of, tz_minute_of.
  cbn [sign_str tz_hour_str tz_minute_str opt_num]. do 2 f_equal. lia.
Qed.

Lemma timezone_offset_witness :
  exists dt,
    parse_iso8601 "1905-12-22T23:59+12:01" = Ok dt /\ dt_tzinfo dt = Some 721.
Proof.
  destruct (timezone_offset (DatePart "1905" "-" "12" "22")
              (TimeHM "23" ":" "59") (TzHM "+" "12" ":" "01") ""
              eq_refl eq_refl eq_refl (or_introl eq_refl) eq_refl)
    as [dt [P [_ [O _]]]].
  exists dt. split; [exact P | exact O].
Defined.

Example timezone_negative_offset :
  parse_iso8601 "1912-06-23T00-0308"
  = Ok (Datetime 1912 6 23 0 0 0 0 (Some (-188))).
Proof. vm_compute. reflexivity. Qed.

Example timezone_utc :
  parse_iso8601 "19100622T1111Z" = Ok (Datetime 1910 6 22 11 11 0 0 (Some 0)).
Proof. vm_compute. reflexivity. Qed.

Example timezone_absent :
  parse_iso8601 "1910-06-22T11:11" = Ok (Datetime 1910 6 22 11 11 0 0 None).
Proof. vm_compute. reflexivity. Qed.

(** C5 (the code departs from it). The fraction [0157] is 15700 microseconds
    when padded to six digits; the parser, which multiplies the double
    nearest to 0.0157 by 1000000 and truncates, returns 15699. *)
Theorem fraction_0157_is_15699 :
  parse_iso8601 "2019-01-01T00:00:00.0157"
  = Ok (Datetime 2019 1 1 0 0 0 15699 None) /\
  num "0157" * 10 ^ (6 - 4) = 15700.
Proof. split; vm_compute; reflexivity. Qed.

(** C6 (the code departs from it). A timestamp followed by one newline is
    accepted: [$] matches before a final newline. *)
Theorem trailing_newline_accepted :
  parse_iso8601 ("2019-10-01" ++ nl) = Ok (Datetime 2019 10 1 0 0 0 0 None).
Proof. vm_compute. reflexivity. Qed.

(** C7. After a successful match the rules are checked in the order
    consistency, year, month, hour, minute, second, timezone hour, timezone
    minute, day: every string either fails the pattern or is a date, an
    optional time and an optional timezone whose parse is the error of the
    first violated rule in that order, and the timestamp when none is
    violated.  With an invalid month and an invalid day the month is
    reported; with an invalid hour and an invalid day, the hour. *)
Theorem validation_order :
  (forall s,
     rmatch datetime_regex s = None \/
     exists d t z e,
       date_ok d = true /\ time_ok t = true /\ tz_ok z = true /\
       (e = "" \/ e = nl) /\ s = all_text d t z ++ e /\
       parse_iso8601 s =
       match first_violation d t z with
       | Some err => Raise err
       | None => Ok (timestamp_of d t z)
       end) /\
  (forall d t z,
     checks d t z =
     [ (consistent d t, InconsistentFormat);
       (1 <=? year_of d, FieldOutOfRange Fyear);
       (in_range 1 (month_of d) 12, FieldOutOfRange Fmonth);
       (in_range 0 (hour_of t) 23, FieldOutOfRange Fhour);
       (in_range 0 (minute_of t) 59, FieldOutOfRange Fminute);
       (in_range 0 (second_of t) 59, FieldOutOfRange Fsecond);
       (in_range 0 (tz_hour_of z) 23, FieldOutOfRange Ftz_hour);
       (in_range 0 (tz_minute_of z) 59, FieldOutOfRange Ftz_minute);
       (in_range 1 (day_of d) (max_day (year_of d) (month_of d)),
        DayOutOfRange) ] /\
     first_violation d t z =
     hd_error (map snd (filter (fun c => negb (fst c)) (checks d t z)))) /\
  parse_iso8601 "2019-13-66T25:62:88" = Raise (FieldOutOfRange Fmonth) /\
  parse_iso8601 "2019-10-32T24" = Raise (FieldOutOfRange Fhour).
Proof.
  split; [| split; [| split]].
  - intros s. destruct (parse_iso8601_cases s) as [[R _] | H]; [now left |].
    right. destruct H as [d [t [z [e H]]]]. exists d, t, z, e. exact H.
  - intros d t z. split; reflexivity.
  - vm_compute. reflexivity.
  - vm_compute. reflexivity.
Qed.

Lemma in_range_false lo x hi : ~ lo <= x <= hi -> in_range lo x hi = false.
Proof. intros H. apply not_true_is_false. now rewrite in_range_iff. Qed.

(** C8 (as amended). A well-formed input with a numeric field out of range
    never parses: it raises the error of the first violated rule, which is
    the inconsistency error, a field error or the day error.  The error is
    that of the field itself ([DayOutOfRange] for the day) when the rules
    before it in the order hold; hour 24, minute 60, second 60, month 00 or
    13, timezone hour 24, timezone minute 60, day 00 or 32 and year 0000
    are such values. *)
Theorem range_errors d t z e :
  date_ok d = true -> time_ok t = true -> tz_ok z = true ->
  e = "" \/ e = nl ->
  (~ 1 <= year_of d \/ ~ 1 <= month_of d <= 12 \/ ~ 0 <= hour_of t <= 23 \/
   ~ 0 <= minute_of t <= 59 \/ ~ 0 <= second_of t <= 59 \/
   ~ 0 <= tz_hour_of z <= 23 \/ ~ 0 <= tz_minute_of z <= 59 \/
   ~ 1 <= day_of d <= max_day (year_of d) (month_of d) ->
   exists err,
     parse_iso8601 (all_text d t z ++ e) = Raise err /\
     first_violation d t z = Some err /\
     (err = InconsistentFormat \/ (exists f, err = FieldOutOfRange f) \/
      err = DayOutOfRange)) /\
  (passes_before 1 d t z = true -> ~ 1 <= year_of d ->
   parse_iso8601 (all_text d t z ++ e) = Raise (FieldOutOfRange Fyear)) /\
  (passes_before 2 d t z = true -> ~ 1 <= month_of d <= 12 ->
   parse_iso8601 (all_text d t z ++ e) = Raise (FieldOutOfRange Fmonth)) /\
  (passes_before 3 d t z = true -> ~ 0 <= hour_of t <= 23 ->
   parse_iso8601 (all_text d t z ++ e) = Raise (FieldOutOfRange Fhour)) /\
  (passes_before 4 d t z = true -> ~ 0 <= minute_of t <= 59 ->
   parse_iso8601 (all_text d t z ++ e) = Raise (FieldOutOfRange Fminute)) /\
  (passes_before 5 d t z = true -> ~ 0 <= second_of t <= 59 ->
   parse_iso8601 (all_text d t z ++ e) = Raise (FieldOutOfRange Fsecond)) /\
  (passes_before 6 d t z = true -> ~ 0 <= tz_hour_of z <= 23 ->
   parse_iso8601 (all_text d t z ++ e) = Raise (FieldOutOfRange Ftz_hour)) /\
  (passes_before 7 d t z = true -> ~ 0 <= tz_minute_of z <= 59 ->
   parse_iso8601 (all_text d t z ++ e) = Raise (FieldOutOfRange Ftz_minute)) /\
  (passes_before 8 d t z = true ->
   ~ 1 <= day_of d <= max_day (year_of d) (month_of d) ->
   parse_iso8601 (all_text d t z ++ e) = Raise DayOutOfRange) /\
  (year_of d = 0 -> ~ 1 <= year_of d) /\
  (month_of d = 0 \/ month_of d = 13 -> ~ 1 <= month_of d <= 12) /\
  (hour_of t = 24 -> ~ 0 <= hour_of t <= 23) /\
  (minute_of t = 60 -> ~ 0 <= minute_of t <= 59) /\
  (second_of t = 60 -> ~ 0 <= second_of t <= 59) /\
  (tz_hour_of z = 24 -> ~ 0 <= tz_hour_of z <= 23) /\
  (tz_minute_of z = 60 -> ~ 0 <= tz_minute_of z <= 59) /\
  (day_of d = 0 \/ day_of d = 32 ->
   ~ 1 <= day_of d <= max_day (year_of d) (month_of d)).
Proof.
  intros Hd Ht Hz He.
  rewrite parse_iso8601_parts by assumption.
  pose proof (max_day_bounds (year_of d) (month_of d)) as Bd.
  split.
  { intros H.
    assert (V : valid d t z = false).
    { apply not_true_is_false. intros V. apply valid_elim in V. tauto. }
    destruct (validate_invalid d t z V) as [err [E I]].
    exists err. split; [exact E |]. split.
    - unfold validate in E. destruct (first_violation d t z); congruence.
    - pose proof (validate_own d t z err E) as O.
      destruct O as [O | O]; [| exact O].
      exfalso. subst err. exact (validate_not_nomatch d t z E). }
  repeat split; try lia; intros P H.
  - apply (validate_at d t z 1 _ P). unfold checks. cbn [nth_error].
    do 2 f_equal. apply Z.leb_gt. lia.
  - apply (validate_at d t z 2 _ P). unfold checks. cbn [nth_error].
    now rewrite (in_range_false _ _ _ H).
  - apply (validate_at d t z 3 _ P). unfold checks. cbn [nth_error].
    now rewrite (in_range_false _ _ _ H).
  - apply (validate_at d t z 4 _ P). unfold checks. cbn [nth_error].
    now rewrite (in_range_false _ _ _ H).
  - apply (validate_at d t z 5 _ P). unfold checks. cbn [nth_error].
    now rewrite (in_range_false _ _ _ H).
  - apply (validate_at d t z 6 _ P). unfold checks. cbn [nth_error].
    now rewrite (in_range_false _ _ _ H).
  - apply (validate_at d t z 7 _ P). unfold checks. cbn [nth_error].
    now rewrite (in_range_false _ _ _ H).
  - apply (validate_at d t z 8 _ P). unfold checks. cbn [nth_error].
    now rewrite (in_range_false _ _ _ H).
Qed.

Lemma range_errors_witness :
  parse_iso8601 "2019-10-01T24" = Raise (FieldOutOfRange Fhour).
Proof.
  destruct (range_errors (DatePart "2019" "-" "10" "01") (TimeH "24") NoTz ""
              eq_refl eq_refl eq_refl (or_introl eq_refl))
    as [_ [_ [_ [H _]]]].
  apply (H eq_refl). cbv. intros [_ H24]. exact (H24 eq_refl).
Defined.

(** C8 as first stated fails: an hour of 24 after a month of 13 is reported
    as the month error, and an hour of 24 with a minute of 60 in a truncated
    time after an extended date as the inconsistency error, so a field out
    of range does not always yield the error of that field. *)
Lemma range_errors_counterexample :
  parse_iso8601 "2019-13-01T24" = Raise (FieldOutOfRange Fmonth) /\
  parse_iso8601 "2019-10-01T2460" = Raise InconsistentFormat /\
  ~ (forall d t z e,
       date_ok d = true -> time_ok t = true -> tz_ok z = true ->
       e = "" \/ e = nl ->
       hour_of t = 24 ->
       parse_iso8601 (all_text d t z ++ e) = Raise (FieldOutOfRange Fhour)).
Proof.
  split; [vm_compute; reflexivity |]. split; [vm_compute; reflexivity |].
  intros H.
  specialize (H (DatePart "2019" "-" "13" "01") (TimeH "24") NoTz ""
                eq_refl eq_refl eq_refl (or_introl eq_refl) eq_refl).
  vm_compute in H. discriminate H.
Qed.

(** C9. When no rule is violated, nothing fails afterwards: the lookup in
    the days-in-month table is defined, the year is in 1..9999, the
    microsecond value is in 0..999999, the timezone is built, the
    constructor accepts the fields, and the parse returns the timestamp. *)
Theorem construction_never_fails d t z e :
  date_ok d = true -> time_ok t = true -> tz_ok z = true ->
  e = "" \/ e = nl ->
  first_violation d t z = None ->
  (exists v, dict_get (days_in_month (year_of d)) (month_of d) = Ok v) /\
  1 <= year_of d <= 9999 /\
  (exists us, microsecond_of (fraction_str t) = Ok us /\ 0 <= us <= 999999) /\
  tzinfo_of (all_groups d t z) = Ok (offset_of z) /\
  mk_datetime (year_of d) (month_of d) (day_of d) (hour_of t) (minute_of t)
              (second_of t) (micro_of t) (offset_of z)
  = Ok (timestamp_of d t z) /\
  parse_iso8601 (all_text d t z ++ e) = Ok (timestamp_of d t z).
Proof.
  intros Hd Ht Hz He F. apply first_violation_none in F.
  pose proof (valid_elim d t z F) as [C [Hy [Hmo [Hh [Hmi [Hs [Hzh [Hzm Hday]]]]]]]].
  destruct (micro_of_parts t Ht) as [Eus Bus].
  assert (By : year_of d <= 9999).
  { unfold date_ok in Hd. rewrite !andb_true_iff in Hd.
    destruct Hd as [[[Dy _] _] _]. pose proof (num_bounds _ _ Dy) as B.
    unfold year_of. simpl in B. lia. }
  rewrite <- in_range_iff in Hmo, Hh, Hmi, Hs, Hzh, Hzm, Hday.
  split; [| split; [| split; [| split; [| split]]]].
  - exists (max_day (year_of d) (month_of d)). now apply dict_get_days_in_month.
  - lia.
  - exists (micro_of t). split; assumption.
  - rewrite (tzinfo_of_parts d t z Hz). unfold tz_result. now rewrite Hzh, Hzm.
  - apply mk_datetime_ok; try assumption; apply in_range_iff; lia.
  - rewrite parse_iso8601_parts by assumption. now apply validate_valid.
Qed.

Lemma construction_never_fails_witness :
  parse_iso8601 "19940126T235959.999999"
  = Ok (Datetime 1994 1 26 23 59 59 999999 None).
Proof.
  destruct (construction_never_fails (DatePart "1994" "" "01" "26")
              (TimeHMSF "23" "" "59" "59" "999999") NoTz ""
              eq_refl eq_refl eq_refl (or_introl eq_refl) eq_refl)
    as [_ [_ [_ [_ [_ P]]]]].
  exact P.
Defined.

(** C10. With the hour alone as time part no time separator is captured and
    the consistency rule is skipped: whatever the date's separator style, the
    input parses to its timestamp when the other rules hold, the parse is
    the same for both styles and is never the inconsistency error; that
    error is raised only when a minute is present. *)
Theorem hour_only_skips_consistency y sep1 sep2 mo dd h z e :
  date_ok (DatePart y sep1 mo dd) = true ->
  date_ok (DatePart y sep2 mo dd) = true ->
  is_digits 2 h = true -> tz_ok z = true ->
  e = "" \/ e = nl ->
  group_of (all_groups (DatePart y sep1 mo dd) (TimeH h) z) colon = None /\
  rmatch datetime_regex (all_text (DatePart y sep1 mo dd) (TimeH h) z ++ e)
  = Some (all_groups (DatePart y sep1 mo dd) (TimeH h) z) /\
  (1 <= num y -> 1 <= num mo <= 12 -> 0 <= num h <= 23 ->
   0 <= tz_hour_of z <= 23 -> 0 <= tz_minute_of z <= 59 ->
   1 <= num dd <= max_day (num y) (num mo) ->
   parse_iso8601 (all_text (DatePart y sep1 mo dd) (TimeH h) z ++ e)
   = Ok (Datetime (num y) (num mo) (num dd) (num h) 0 0 0 (offset_of z)) /\
   parse_iso8601 (all_text (DatePart y sep2 mo dd) (TimeH h) z ++ e)
   = Ok (Datetime (num y) (num mo) (num dd) (num h) 0 0 0 (offset_of z))) /\
  parse_iso8601 (all_text (DatePart y sep1 mo dd) (TimeH h) z ++ e)
  = parse_iso8601 (all_text (DatePart y sep2 mo dd) (TimeH h) z ++ e) /\
  parse_iso8601 (all_text (DatePart y sep1 mo dd) (TimeH h) z ++ e)
  <> Raise InconsistentFormat /\
  (forall t, time_ok t = true ->
     parse_iso8601 (all_text (DatePart y sep1 mo dd) t z ++ e)
     = Raise InconsistentFormat ->
     minute_str t <> None).
Proof.
  intros Hd1 Hd2 Hh Hz He.
  split; [now destruct z |].
  split; [now apply rmatch_complete |].
  rewrite !parse_iso8601_parts by assumption.
  split; [| split; [reflexivity | split]].
  - intros Hy Hmo Hhr Hzh Hzm Hday.
    assert (V : forall sep, valid (DatePart y sep mo dd) (TimeH h) z = true).
    { intros sep.
      apply valid_intro;
        unfold year_of, month_of, day_of, hour_of, minute_of, second_of;
        cbn [d_year d_month d_day hour_str minute_str second_str opt_num];
        first [assumption | reflexivity | lia]. }
    rewrite !validate_valid by apply V. split; reflexivity.
  - rewrite validate_inconsistent. discriminate.
  - intros t Ht. rewrite parse_iso8601_parts by assumption.
    rewrite validate_inconsistent. unfold consistent.
    destruct t; cbn [colon_str minute_str]; discriminate.
Qed.

Lemma hour_only_skips_consistency_witness :
  parse_iso8601 "2019-10-01T12" = Ok (Datetime 2019 10 1 12 0 0 0 None) /\
  parse_iso8601 "20191001T12" = Ok (Datetime 2019 10 1 12 0 0 0 None).
Proof.
  destruct (hour_only_skips_consistency "2019" "-" "" "10" "01" "12" NoTz ""
              eq_refl eq_refl eq_refl eq_refl (or_introl eq_refl))
    as [_ [_ [S _]]].
  apply S; cbv; first [discriminate | split; discriminate].
Defined.

Example hour_only_extended :
  parse_iso8601 "2019-10-01T12" = Ok (Datetime 2019 10 1 12 0 0 0 None).
Proof. vm_compute. reflexivity. Qed.

Example hour_only_truncated :
  parse_iso8601 "20191001T12" = Ok (Datetime 2019 10 1 12 0 0 0 None).
Proof. vm_compute. reflexivity. Qed.

(** * Further properties of the parser *)

(** X1. On strings of characters below U+0100, where [\d] is [0]..[9]: the
    grammar error is raised exactly on the strings that are not a date, an
    optional time, an optional timezone and at most one final newline. *)
Theorem nomatch_iff_not_accepted s :
  parse_iso8601 s = Raise NoMatch <-> ~ accepted s.
Proof.
  split.
  - intros H [d [t [z [e [Hd [Ht [Hz [He Hs]]]]]]]]. subst s.
    rewrite parse_iso8601_parts in H by assumption.
    exact (validate_not_nomatch d t z H).
  - apply nomatch_of_not_accepted.
Qed.

(** X2. One final newline changes nothing: the parse of an accepted text
    followed by a newline is the parse of the text. *)
Theorem final_newline_ignored d t z :
  date_ok d = true -> time_ok t = true -> tz_ok z = true ->
  parse_iso8601 (all_text d t z ++ nl) = parse_iso8601 (all_text d t z).
Proof.
  intros Hd Ht Hz.
  rewrite <- (app_nil_r_s (all_text d t z)) at 2.
  rewrite !parse_iso8601_parts; auto.
Qed.

Lemma final_newline_ignored_witness :
  parse_iso8601 ("2019-12-18T21:10:48" ++ nl)
  = parse_iso8601 "2019-12-18T21:10:48".
Proof.
  exact (final_newline_ignored (DatePart "2019" "-" "12" "18")
           (TimeHMS "21" ":" "10" "48") NoTz eq_refl eq_refl eq_refl).
Defined.

(** X3. On every string the parser returns a timestamp or raises one of its
    own four errors: never a [TypeError], a [KeyError], an [OverflowError]
    or a [ValueError] of [int], [timezone] or the [datetime] constructor. *)
Theorem only_own_errors s e : parse_iso8601 s = Raise e -> own_error e.
Proof.
  intros H. destruct (parse_iso8601_cases s) as [[_ N] | P].
  - rewrite N in H. injection H as <-. now left.
  - destruct P as [d [t [z [e' [_ [_ [_ [_ [_ P]]]]]]]]].
    rewrite P in H. exact (validate_own d t z e H).
Qed.

Lemma only_own_errors_witness : own_error (FieldOutOfRange Fmonth).
Proof.
  exact (only_own_errors "1989-13-01" (FieldOutOfRange Fmonth) eq_refl).
Defined.

(** X4. The extended form (hyphens and colons) and the truncated form (no
    separator) of the same fields parse alike. *)
Theorem extended_truncated_agree d t z e :
  date_ok d = true -> time_ok t = true -> tz_ok z = true ->
  e = "" \/ e = nl ->
  parse_iso8601 (all_text (date_with "-" d) (time_with ":" t) z ++ e)
  = parse_iso8601 (all_text (date_with "" d) (time_with "" t) z ++ e).
Proof.
  intros Hd Ht Hz He.
  assert (Hd' : forall sep, is_sep "-" sep = true ->
                            date_ok (date_with sep d) = true).
  { intros sep Hs. unfold date_ok, date_with in *.
    cbn [d_year d_sep d_month d_day]. rewrite !andb_true_iff in *.
    tauto. }
  assert (Ht' : forall sep, is_sep ":" sep = true ->
                            time_ok (time_with sep t) = true).
  { intros sep Hs. destruct t; cbn [time_ok time_with] in *;
      rewrite ?andb_true_iff in *; tauto. }
  rewrite !parse_iso8601_parts; auto.
  unfold validate, first_violation, violations, checks, consistent.
  destruct t; reflexivity.
Qed.

Lemma extended_truncated_agree_witness :
  parse_iso8601 "2019-12-18T21:10" = parse_iso8601 "20191218T2110".
Proof.
  exact (extended_truncated_agree (DatePart "2019" "-" "12" "18")
           (TimeHM "21" ":" "10") NoTz "" eq_refl eq_refl eq_refl
           (or_introl eq_refl)).
Defined.

Lemma inexact_spec n : forall a k,
  inexact n a k = [] ->
  forall d, a <= d < a + Z.of_nat n ->
            int_of_float (micro_float d k) = Ok (d * 10 ^ (6 - k)).
Proof.
  induction n as [| n IH]; intros a k H d Hd.
  - simpl in Hd. lia.
  - cbn [inexact] in H.
    destruct (int_of_float (micro_float a k)) as [v |] eqn:E; [| discriminate].
    destruct (v =? a * 10 ^ (6 - k)) eqn:V; [| discriminate].
    apply Z.eqb_eq in V.
    destruct (Z.eq_dec d a) as [-> | Hne]; [now rewrite E, V |].
    apply (IH (a + 1) k H). lia.
Qed.

Lemma short_fractions_exact :
  forallb (fun k => match inexact (10 ^ k)%nat 0 (Z.of_nat k) with
                    | [] => true
                    | _ :: _ => false
                    end) [1; 2; 3]%nat = true.
Proof. vm_compute. reflexivity. Qed.

(** X5. A fraction of one, two or three digits gives exactly its digits
    padded with zeros to six places, as the microsecond field. *)
Theorem milliseconds_exact d h c mi s f z e :
  date_ok d = true -> time_ok (TimeHMSF h c mi s f) = true -> tz_ok z = true ->
  e = "" \/ e = nl ->
  valid d (TimeHMSF h c mi s f) z = true ->
  (length f <= 3)%nat ->
  microsecond_of (Some f) = Ok (num f * 10 ^ (6 - Z.of_nat (length f))) /\
  exists dt,
    parse_iso8601 (all_text d (TimeHMSF h c mi s f) z ++ e) = Ok dt /\
    dt_microsecond dt = num f * 10 ^ (6 - Z.of_nat (length f)).
Proof.
  intros Hd Ht Hz He V L3.
  assert (Hf : is_fraction f = true).
  { cbn [time_ok] in Ht. apply andb_true_iff in Ht. tauto. }
  apply is_fraction_elim in Hf. destruct Hf as [[L1 _] Df].
  assert (E : microsecond_of (Some f)
              = Ok (num f * 10 ^ (6 - Z.of_nat (length f)))).
  { unfold microsecond_of, float_of_fraction.
    change (PrimFloat.mul
              (PrimFloat.div (float_of_Z (decimal 0 f))
                             (float_of_Z (10 ^ Z.of_nat (length f))))
              (float_of_Z 1000000))
      with (micro_float (num f) (Z.of_nat (length f))).
    pose proof short_fractions_exact as H. rewrite forallb_forall in H.
    assert (Hin : In (length f) [1; 2; 3]%nat) by (simpl; lia).
    specialize (H _ Hin).
    destruct (inexact (10 ^ length f)%nat 0 (Z.of_nat (length f))) eqn:I;
      [| discriminate].
    apply (inexact_spec _ _ _ I).
    rewrite Nat2Z.inj_pow. simpl Z.of_nat at 2.
    pose proof (decimal_bounds f Df 0 ltac:(lia)). unfold num. lia. }
  split; [exact E |].
  exists (timestamp_of d (TimeHMSF h c mi s f) z).
  rewrite parse_iso8601_parts by assumption.
  split; [now apply validate_valid |].
  cbn [timestamp_of dt_microsecond]. unfold micro_of. cbn [fraction_str].
  now rewrite E.
Qed.

Lemma milliseconds_exact_witness :
  exists dt,
    parse_iso8601 "1996-02-10T08:17:17.054" = Ok dt /\
    dt_microsecond dt = 54000.
Proof.
  destruct (milliseconds_exact (DatePart "1996" "-" "02" "10")
              "08" ":" "17" "17" "054" NoTz ""
              eq_refl eq_refl eq_refl (or_introl eq_refl) eq_refl
              (le_n 3))
    as [_ [dt [P M]]].
  exists dt. split; [exact P | exact M].
Defined.

(** X6. Every timestamp the parser returns is a calendar date and a time of
    day: the year is in 1..9999, the month in 1..12, the day in 1..the
    length of the month, the hour in 0..23, minute and second in 0..59, the
    microsecond in 0..999999, and an offset, if any, is within 23 hours 59
    minutes of UTC. *)
Theorem result_in_range s dt :
  parse_iso8601 s = Ok dt ->
  1 <= dt_year dt <= 9999 /\ 1 <= dt_month dt <= 12 /\
  1 <= dt_day dt <= max_day (dt_year dt) (dt_month dt) /\
  0 <= dt_hour dt <= 23 /\ 0 <= dt_minute dt <= 59 /\
  0 <= dt_second dt <= 59 /\ 0 <= dt_microsecond dt <= 999999 /\
  (forall o, dt_tzinfo dt = Some o -> -1439 <= o <= 1439).
Proof.
  intros H. destruct (parse_iso8601_cases s) as [[_ N] | P]; [congruence |].
  destruct P as [d [t [z [e [Hd [Ht [Hz [He [_ P]]]]]]]]].
  rewrite P in H. unfold validate in H.
  destruct (first_violation d t z) eqn:F; [discriminate |].
  injection H as <-.
  destruct (construction_parts d t z Hd Ht Hz F)
    as [By [Bus V]].
  pose proof (valid_elim d t z V) as [C [Hy [Hmo [Hh [Hmi [Hs [Hzh [Hzm Hday]]]]]]]].
  cbn [timestamp_of dt_year dt_month dt_day dt_hour dt_minute dt_second
       dt_microsecond dt_tzinfo].
  repeat (split; [lia |]).
  intros o Ho. unfold offset_of in Ho.
  destruct z as [| | sg h | sg h c m]; [discriminate Ho | | |];
    match type of Ho with
    | Some ?v = Some _ => assert (E : o = v) by congruence; rewrite E; clear E Ho
    end; [lia | |];
    unfold tz_sign; cbn [sign_str]; destruct (String.eqb sg "+"); lia.
Qed.

Lemma result_in_range_witness :
  1 <= 9999 <= 9999 /\ 1 <= 12 <= 12 /\ 1 <= 31 <= max_day 9999 12 /\
  0 <= 23 <= 23 /\ 0 <= 59 <= 59 /\ 0 <= 58 <= 59 /\ 0 <= 0 <= 999999 /\
  (forall o, Some (-188) = Some o -> -1439 <= o <= 1439).
Proof.
  exact (result_in_range "9999-12-31T23:59:58-03:08"
           (Datetime 9999 12 31 23 59 58 0 (Some (-188))) eq_refl).
Defined.

(** X7. On strings of characters below U+0100: the parser returns a
    timestamp exactly on the accepted strings on which every rule holds.
    Year, month, day, hour, minute and second are then the fields read as
    decimal numbers (0 for an absent one), the offset is the signed
    minutes of the timezone, and the microsecond field is what the float
    computation of the parser gives on the fraction. *)
Theorem success_iff_valid s dt :
  parse_iso8601 s = Ok dt <->
  exists d t z e,
    date_ok d = true /\ time_ok t = true /\ tz_ok z = true /\
    (e = "" \/ e = nl) /\ s = all_text d t z ++ e /\
    valid d t z = true /\
    microsecond_of (fraction_str t) = Ok (dt_microsecond dt) /\
    dt = Datetime (year_of d) (month_of d) (day_of d)
                  (hour_of t) (minute_of t) (second_of t)
                  (dt_microsecond dt) (offset_of z).
Proof.
  split.
  - intros H. destruct (parse_iso8601_cases s) as [[_ N] | P]; [congruence |].
    destruct P as [d [t [z [e [Hd [Ht [Hz [He [Hs P]]]]]]]]].
    exists d, t, z, e. repeat (split; [assumption |]).
    rewrite P in H. unfold validate in H.
    destruct (first_violation d t z) eqn:F; [discriminate |].
    apply first_violation_none in F. split; [exact F |].
    injection H as <-. cbn [timestamp_of dt_microsecond].
    destruct (micro_of_parts t Ht) as [E _]. split; [exact E | reflexivity].
  - intros [d [t [z [e [Hd [Ht [Hz [He [-> [V [M E]]]]]]]]]]].
    rewrite parse_iso8601_parts by assumption.
    rewrite (validate_valid d t z V). rewrite E. unfold timestamp_of.
    destruct (micro_of_parts t Ht) as [E' _]. rewrite E' in M.
    injection M as <-. reflexivity.
Qed.

(** X8. The separator inside the timezone is independent of the others:
    [+hh:mm] and [+hhmm] parse alike, whatever the style of date and
    time. *)
Theorem timezone_separator_free d t sg h c m e :
  date_ok d = true -> time_ok t = true -> tz_ok (TzHM sg h c m) = true ->
  e = "" \/ e = nl ->
  parse_iso8601 (all_text d t (TzHM sg h ":" m) ++ e)
  = parse_iso8601 (all_text d t (TzHM sg h "" m) ++ e).
Proof.
  intros Hd Ht Hz He.
  assert (Hz' : forall sep, is_sep ":" sep = true ->
                            tz_ok (TzHM sg h sep m) = true).
  { intros sep Hs. cbn [tz_ok] in *. rewrite !andb_true_iff in *. tauto. }
  rewrite !parse_iso8601_parts; auto.
Qed.

Lemma timezone_separator_free_witness :
  parse_iso8601 "1905-12-22T23:59+12:01" = parse_iso8601 "1905-12-22T23:59+1201".
Proof.
  exact (timezone_separator_free (DatePart "1905" "-" "12" "22")
           (TimeHM "23" ":" "59") "+" "12" ":" "01" ""
           eq_refl eq_refl eq_refl (or_introl eq_refl)).
Defined.

(** X9. The pattern is unambiguous: however an accepted string is cut into
    a date, a time, a timezone and a final newline, the groups are the
    same. *)
Theorem groups_unambiguous d t z e d' t' z' e' :
  date_ok d = true -> time_ok t = true -> tz_ok z = true ->
  e = "" \/ e = nl ->
  date_ok d' = true -> time_ok t' = true -> tz_ok z' = true ->
  e' = "" \/ e' = nl ->
  all_text d t z ++ e = all_text d' t' z' ++ e' ->
  all_groups d t z = all_groups d' t' z' /\
  rmatch datetime_regex (all_text d t z ++ e) = Some (all_groups d t z).
Proof.
  intros Hd Ht Hz He Hd' Ht' Hz' He' E.
  pose proof (rmatch_complete d t z e Hd Ht Hz He) as R.
  pose proof (rmatch_complete d' t' z' e' Hd' Ht' Hz' He') as R'.
  rewrite <- E, R in R'. split; [congruence | exact R].
Qed.

Lemma groups_unambiguous_witness :
  rmatch datetime_regex "2019-12-18T21:10"
  = Some [(minute, "10"); (colon, ":"); (hour, "21"); (day, "18");
          (month, "12"); (hyphen, "-"); (year, "2019")].
Proof.
  exact (proj2 (groups_unambiguous (DatePart "2019" "-" "12" "18")
                  (TimeHM "21" ":" "10") NoTz ""
                  (DatePart "2019" "-" "12" "18") (TimeHM "21" ":" "10") NoTz ""
                  eq_refl eq_refl eq_refl (or_introl eq_refl)
                  eq_refl eq_refl eq_refl (or_introl eq_refl) eq_refl)).
Defined.

Lemma is_sep_length c w : is_sep (String c "") w = true -> (length w <= 1)%nat.
Proof.
  unfold is_sep. intros H. apply orb_true_iff in H.
  destruct H as [H | H]; apply String.eqb_eq in H; subst w; simpl; lia.
Qed.

Lemma accepted_length_first s :
  accepted s -> (8 <= length s <= 33)%nat /\ starts is_digit s = true.
Proof.
  intros [d [t [z [e [Hd [Ht [Hz [He ->]]]]]]]].
  assert (Le : (length e <= 1)%nat) by (destruct He as [-> | ->]; simpl; lia).
  assert (Lt : (length (time_text t) <= 16)%nat).
  { destruct t; cbn [time_ok] in Ht; rewrite ?andb_true_iff in Ht;
      cbn [time_text]; rewrite ?length_app_s; cbn [length];
      repeat match goal with
      | H : _ /\ _ |- _ => destruct H
      end;
      repeat match goal with
      | H : is_digits _ ?w = true |- _ =>
          rewrite (is_digits_length _ _ H); clear H
      | H : is_sep _ ?w = true |- _ =>
          pose proof (is_sep_length _ _ H); clear H
      | H : is_fraction ?w = true |- _ =>
          apply is_fraction_elim in H; destruct H as [? _]
      end; lia. }
  assert (Lz : (length (tz_text z) <= 6)%nat).
  { destruct z; cbn [tz_ok] in Hz; rewrite ?andb_true_iff in Hz;
      cbn [tz_text]; rewrite ?length_app_s; cbn [length];
      repeat match goal with
      | H : _ /\ _ |- _ => destruct H
      end;
      repeat match goal with
      | H : is_digits _ ?w = true |- _ =>
          rewrite (is_digits_length _ _ H); clear H
      | H : is_sep _ ?w = true |- _ =>
          pose proof (is_sep_length _ _ H); clear H
      | H : is_sign ?w = true |- _ =>
          apply is_sign_elim in H; destruct H as [-> | ->]
      end; cbn [length]; lia. }
  unfold date_ok in Hd. rewrite !andb_true_iff in Hd.
  destruct Hd as [[[Hy Hs] Hmo] Hdd].
  unfold all_text, date_text. split.
  - rewrite !length_app_s.
    rewrite (is_digits_length _ _ Hy), (is_digits_length _ _ Hmo),
      (is_digits_length _ _ Hdd).
    pose proof (is_sep_length _ _ Hs). lia.
  - unfold is_digits in Hy. apply andb_true_iff in Hy. destruct Hy as [Ly Dy].
    destruct (d_year d) as [| c y]; [discriminate Ly |].
    simpl in *. apply andb_true_iff in Dy. tauto.
Qed.

(** X10. On strings of characters below U+0100: a string shorter than 8 or
    longer than 33 characters, or one whose first character is not one of
    [0]..[9] (the empty string, a blank, a letter), raises the grammar
    error. *)
Theorem rejected_by_length_or_first s :
  (length s < 8)%nat \/ (33 < length s)%nat \/ starts is_digit s = false ->
  parse_iso8601 s = Raise NoMatch.
Proof.
  intros H. apply nomatch_of_not_accepted. intros A.
  apply accepted_length_first in A. destruct A as [L F].
  destruct H as [H | [H | H]]; [lia | lia | congruence].
Qed.

Lemma rejected_by_length_or_first_witness :
  parse_iso8601 " " = Raise NoMatch.
Proof.
  exact (rejected_by_length_or_first " " (or_introl (le_S _ _ (le_S _ _ (le_S _ _ (le_S _ _ (le_S _ _ (le_S _ _ (le_n 2))))))))).
Defined.
